(** * ActiveTigger front end: the request/response layer

    A shallow embedding of [frontend/src/core/api.ts] (two revisions of the
    file are part of the sources) and of the file-selection effect of
    [frontend/src/components/forms/ImportPredictionDataset.tsx].

    Asynchronous functions are embedded as computations in a small
    state-and-exception monad [M]: the state holds the browser's local
    storage and the trace of the effects performed so far (requests sent,
    notifications, files saved, console output); the outcome is either a
    returned value or a thrown exception.  The answer of the server to the
    single request that a function may send is an argument of the embedded
    function: every request is answered, with [{data, response}] or with
    [{error, response}], as the client types its results.  Numbers are
    integers. *)

From Stdlib Require Import ZArith String Ascii List Bool Lia Sorted.
From stdpp Require Import base option strings pretty list gmap.

Open Scope Z_scope.
Open Scope string_scope.

(** ** JavaScript values *)

(** Values that travel in query strings, request bodies and return values. *)
#[warnings="-register-all"]
Inductive JS : Type :=
| JUndefined
| JNull
| JBool (b : bool)
| JNum (n : Z)
| JDec (literal : string)      (* a non-integral number literal, kept as written *)
| JStr (s : string)
| JArr (items : list JS)
| JObj (fields : list (string * JS)).

(** JavaScript's conversion to boolean, as used by [if], [&&], [||], [!]
    and the conditional operator. *)
Class Truthy (A : Type) := truthy : A -> bool.

Definition nonempty (s : string) : bool :=
  match s with EmptyString => false | String _ _ => true end.

#[global] Instance truthy_bool : Truthy bool := fun b => b.
#[global] Instance truthy_string : Truthy string := nonempty.
#[global] Instance truthy_Z : Truthy Z := fun n => negb (Z.eqb n 0).
(** [string | null], [number | null]: null and undefined are [None]. *)
#[global] Instance truthy_option {A} `{Truthy A} : Truthy (option A) :=
  fun o => match o with Some a => truthy a | None => false end.
#[global] Instance truthy_JS : Truthy JS :=
  fun v => match v with
           | JUndefined | JNull => false
           | JBool b => b
           | JNum n => negb (Z.eqb n 0)
           | JDec _ => true
           | JStr s => nonempty s
           | JArr _ | JObj _ => true
           end.

#[global] Arguments truthy {A} {_} _ /.
#[global] Arguments truthy_bool b /.
#[global] Arguments truthy_string !s /.
#[global] Arguments truthy_Z n /.
#[global] Arguments truthy_option {A} {_} !o /.
#[global] Arguments truthy_JS !v /.

(** An object reference ([T | null | undefined] with [T] an object or array
    type): every object is truthy. *)
Definition present {A} (o : option A) : bool :=
  match o with Some _ => true | None => false end.

(** [a || b] on a nullable number. *)
Definition or_default (a : option Z) (b : Z) : Z :=
  match a with
  | Some n => if truthy n then n else b
  | None => b
  end.

Definition js_string (o : option string) : JS :=
  match o with Some s => JStr s | None => JNull end.

Definition js_strings (l : list string) : JS := JArr (map JStr l).

(** [Array.prototype.join]. *)
Fixpoint join (sep : string) (l : list string) : string :=
  match l with
  | [] => ""
  | [x] => x
  | x :: rest => x ++ sep ++ join sep rest
  end.

(** ** Exceptions and outcomes *)

Inductive Exn : Type :=
| HttpError (status : Z) (message : string)   (* core/HTTPError *)
| Error (message : string)
| TypeError.                                  (* property access on undefined *)

Inductive Outcome (A : Type) : Type :=
| Returned (a : A)
| Thrown (e : Exn).
Arguments Returned {A} a.
Arguments Thrown {A} e.

(** ** Notifications (types.ts) *)

Inductive NotificationKind := success | info | warning | error.

Record NotificationData := {
  type : NotificationKind;
  message : string;
}.

(** ** Requests *)

Inductive Method := GET | POST.

(** The platform's [Headers] object: names are case-insensitive, which the
    platform implements by normalising them to lower case. *)
Definition lower_ascii (c : ascii) : ascii :=
  let n := nat_of_ascii c in
  if (Nat.leb 65 n && Nat.leb n 90)%bool then ascii_of_nat (n + 32) else c.

Fixpoint lower (s : string) : string :=
  match s with
  | EmptyString => EmptyString
  | String c r => String (lower_ascii c) (lower r)
  end.

Module Headers.
Definition t : Type := gmap string string.
Definition get (h : gmap string string) (name : string) : option string :=
  h !! lower name.
Definition set (h : gmap string string) (name value : string) : gmap string string :=
  <[lower name := value]> h.
Definition of_pairs (l : list (string * string)) : gmap string string :=
  fold_left (fun h p => set h (fst p) (snd p)) l ∅.
End Headers.

(** The options object given to [api.GET] and [api.POST]. *)
Record Options := {
  params_path : list (string * JS);
  params_query : list (string * JS);
  body : option JS;
  headers : list (string * string);
  parseAs : string;
}.

Definition options : Options :=
  {| params_path := []; params_query := []; body := None; headers := [];
     parseAs := "json" |}.

Record Request := {
  req_method : Method;
  req_path : string;
  req_path_params : list (string * JS);
  req_query : list (string * JS);
  req_body : option JS;
  req_parseAs : string;
  req_headers : gmap string string;
}.

Definition new_request (m : Method) (path : string) (o : Options) : Request :=
  {| req_method := m; req_path := path; req_path_params := params_path o;
     req_query := params_query o; req_body := body o; req_parseAs := parseAs o;
     req_headers := Headers.of_pairs (headers o) |}.

Definition with_headers (r : Request) (h : gmap string string) : Request :=
  {| req_method := req_method r; req_path := req_path r;
     req_path_params := req_path_params r; req_query := req_query r;
     req_body := req_body r; req_parseAs := req_parseAs r; req_headers := h |}.

(** ** Responses *)

Record Response := { status : Z }.

Record ValidationError := { msg : string }.

(** The [detail] of an error body.  The generated type says a list of
    validation errors; the server also sends a plain text (see the TODO in
    [login]). *)
Inductive Detail :=
| DetailAbsent
| DetailText (s : string)
| DetailList (l : list ValidationError).

Record ErrorBody := { detail : Detail }.

(** The result of a call of the generated client: either [{data, response}]
    or [{error, response}]; [D] is the type of the success payload. *)
Inductive FetchResult (D : Type) : Type :=
| FetchData (d : D) (r : Response)
| FetchError (e : ErrorBody) (r : Response).
Arguments FetchData {D} d r.
Arguments FetchError {D} e r.

Section Result.
Context {D : Type}.
Definition res_data (res : FetchResult D) : option D :=
  match res with FetchData d _ => Some d | FetchError _ _ => None end.
Definition res_error (res : FetchResult D) : option ErrorBody :=
  match res with FetchData _ _ => None | FetchError e _ => Some e end.
Definition res_response (res : FetchResult D) : Response :=
  match res with FetchData _ r => r | FetchError _ r => r end.
End Result.

(** [detail + ''] *)
Definition detail_to_string (d : Detail) : string :=
  match d with
  | DetailAbsent => "undefined"
  | DetailText s => s
  | DetailList l => join "," (map (fun _ => "[object Object]") l)
  end.

(** [error.toString()] on the error of a typed result, a plain object
    ([ErrorBody]). *)
Definition error_toString (e : ErrorBody) : string := "[object Object]".

(** ** The world and the monad *)

Inductive Event : Type :=
| Fetch (req : Request)                        (* a request left the browser *)
| Notify (n : NotificationData)
| SaveAs (blob : option string) (filename : string)   (* file-saver *)
| LoadFile (filename : string)                 (* core/utils: read and parse *)
| Called (callback : string)                   (* a callback given by the caller *)
| Console.

Record World := {
  localStorage : gmap string string;
  trace : list Event;                          (* oldest first *)
}.

Definition M (A : Type) : Type := World -> Outcome A * World.

#[global] Instance M_ret : MRet M := fun A a w => (Returned a, w).
#[global] Instance M_bind : MBind M := fun A B f m w =>
  match m w with
  | (Returned a, w') => f a w'
  | (Thrown e, w') => (Thrown e, w')
  end.
#[global] Instance M_throw : MThrow Exn M := fun A e w => (Thrown e, w).

(** The world after the effects [evs]. *)
Definition log (w : World) (evs : list Event) : World :=
  {| localStorage := localStorage w; trace := trace w ++ evs |}.

Definition emit (ev : Event) : M unit := fun w => (Returned tt, log w [ev]).

Definition localStorage_getItem (key : string) : M (option string) :=
  fun w => (Returned (localStorage w !! key), w).

Definition notify (n : NotificationData) : M unit := emit (Notify n).
Definition saveAs (blob : option string) (filename : string) : M unit :=
  emit (SaveAs blob filename).
Definition console_log : M unit := emit Console.

Definition when (b : bool) (m : M unit) : M unit := if b then m else mret tt.

(** Observations on traces. *)
Definition requests (t : list Event) : list Request :=
  omap (fun ev => match ev with Fetch r => Some r | _ => None end) t.
Definition notifications (t : list Event) : list NotificationData :=
  omap (fun ev => match ev with Notify n => Some n | _ => None end) t.
Definition saved (t : list Event) : list (option string * string) :=
  omap (fun ev => match ev with SaveAs b f => Some (b, f) | _ => None end) t.

(** The effects of running [m] from [w]: what [m] appended to the trace. *)
Definition effects {A} (m : M A) (w : World) : list Event :=
  drop (length (trace w)) (trace (snd (m w))).
Definition outcome {A} (m : M A) (w : World) : Outcome A := fst (m w).

(** ** The client and its middleware (openapi-fetch) *)

(** [onRequest] returns the request to send, or [None] for "unchanged". *)
Record Middleware := { onRequest : Request -> M (option Request) }.

Section Client.
Context {D : Type}.
Variable mw : Middleware.

(** One round trip: build the request, run the middleware, send, and get
    the server's answer [res]. *)
Definition client_call (m : Method) (path : string) (o : Options)
    (res : FetchResult D) : M (FetchResult D) :=
  let request := new_request m path o in
  r ← onRequest mw request;
  emit (Fetch (default request r));;
  mret res.

(** The request that leaves the browser for [request] in the world [w]. *)
Definition sent (request : Request) (w : World) : Request :=
  match fst (onRequest mw request w) with
  | Returned r => default request r
  | Thrown _ => request
  end.
End Client.

(** The value of a key in a query string or a body. *)
Fixpoint assoc (key : string) (l : list (string * JS)) : option JS :=
  match l with
  | [] => None
  | (k, v) :: rest => if String.eqb k key then Some v else assoc key rest
  end.

(** ** Parts of the repository that the sources do not contain *)

(** [core/auth] (the credential type and [getAuthHeaders]) and the JSON
    parser of the platform are parameters of the development.  The stored
    text is written by the auth context with [JSON.stringify], so that
    parsing it does not fail; [JSON_parse] returns [None] for a text whose
    value is falsy.  [getAuthHeaders] returns the pairs of the [headers]
    of its result, or [None] when it returns nothing. *)
Class AuthProvider := {
  User : Type;
  JSON_parse : string -> option User;
  getAuthHeaders : User -> option (list (string * string));
}.

(** [core/config]: the base URL of the API. *)
Class Config := { api_url : string }.

(** Values returned by hook functions whose result is a payload, [null] or
    nothing. *)
Inductive Maybe (D : Type) : Type :=
| undefined
| null
| value (d : D).
Arguments undefined {D}.
Arguments null {D}.
Arguments value {D} d.

#[global] Instance truthy_Maybe {D} : Truthy (Maybe D) :=
  fun v => match v with value _ => true | _ => false end.
#[global] Arguments truthy_Maybe {D} !v /.

(** [SelectionConfig] (types.ts). *)
Record SelectionConfig := {
  mode : string;
  sample : string;
  label : option string;
  frame : option (list Z);
  frameSelection : option bool;
  filter : option string;
}.

(** The payload of [/elements/next]. *)
Record NextElement := { element_id : string }.

(** The payload of [/elements/table]. *)
Record TablePage := { items : JS; total : Z }.

(** The state of [useTableElements]. *)
Record PageInfo := { pageIndex : Z; pageSize : Z }.
Record TableElements := { pageInfo : PageInfo; table_total : Z }.

(** The payload of [/auth/project]. *)
Record ProjectAuth := { auth : JS }.

(** The fields of [SimpleModelModel], [ProjectionInStrictModel] (generated
    from the API schema) and [newBertModel] (types.ts) that the hooks read. *)
Record SimpleModelModel := {
  sm_features : option (list string);
  sm_model : option string;
  sm_params : option JS;
}.

Record ProjectionInStrictModel := {
  pj_method : string;
  pj_features : option (list string);
  pj_params : option JS;
}.

Record newBertModel := {
  bm_name : option string;
  bm_base : string;
  bm_parameters : JS;
}.

#[global] Instance truthy_newBertModel : Truthy newBertModel := fun _ => true.
#[global] Arguments truthy_newBertModel _ /.

(** [a || b] on an optional string. *)
Definition or_string (a : option string) (b : string) : string :=
  match a with
  | Some s => if truthy s then s else b
  | None => b
  end.

Definition data_or_undefined {D} (res : FetchResult D) : Maybe D :=
  from_option value undefined (res_data res).

Definition opts (path query : list (string * JS)) (b : option JS) : Options :=
  {| params_path := path; params_query := query; body := b; headers := [];
     parseAs := "json" |}.

Definition bearer (token : string) : list (string * string) :=
  [("Authorization", "Bearer " ++ token)].

(** The message built by [useCreateProject] and [useCreateTestSet] from an
    error body: [detail ? detail?.map((d) => d.msg).join('; ') : error.toString()].
    A non-empty text has no [map]. *)
Definition detail_messages (e : ErrorBody) : Outcome string :=
  match detail e with
  | DetailList l => Returned (join "; " (map msg l))
  | DetailText s => if truthy s then Thrown TypeError else Returned (error_toString e)
  | DetailAbsent => Returned (error_toString e)
  end.

Definition throw_detail {A} (e : ErrorBody) : M A :=
  match detail_messages e with
  | Returned m => mthrow (Error m)
  | Thrown x => mthrow x
  end.

(** * [src/frontend/src/core/api.ts] *)

Module Api1.
Section Api.
Context `{AuthProvider} {D : Type}.

(** Lines 29-44. *)
Definition authMiddleware : Middleware :=
  {| onRequest := fun request =>
       authenticatedUserJSON ← localStorage_getItem "activeTigger.auth";
       let authenticatedUser :=
         match authenticatedUserJSON with
         | Some text => if truthy text then JSON_parse text else None
         | None => None
         end in
       match authenticatedUser with
       | Some user =>
           match getAuthHeaders user with
           | Some authHeaders =>
               mret (Some (with_headers request
                 (fold_left (fun h p => Headers.set h (fst p) (snd p))
                            authHeaders (req_headers request))))
           | None => mret (Some request)
           end
       | None => mret None
       end |}.

Definition api_GET {R : Type} := client_call (D := R) authMiddleware GET.
Definition api_POST {R : Type} := client_call (D := R) authMiddleware POST.

(** Lines 59-75. *)
Definition login (params : JS) (answer : FetchResult D) : M D :=
  res ← api_POST "/token"
        {| params_path := []; params_query := []; body := Some params;
           headers := [("Content-Type", "application/x-www-form-urlencoded")];
           parseAs := "json" |} answer;
  match res_data res, res_error res with
  | Some d, None => mret d
  | _, err =>
      console_log;;
      match err with
      | Some e => mthrow (HttpError (status (res_response res))
                                    (detail_to_string (detail e)))
      | None => mthrow TypeError
      end
  end.

(** Lines 82-98. *)
Definition logout (token : string) (answer : FetchResult D) : M bool :=
  res ← api_POST "/users/disconnect"
        {| params_path := []; params_query := []; body := None;
           headers := bearer token; parseAs := "json" |} answer;
  if Z.eqb (status (res_response res)) 200 then mret true
  else console_log;;
       mthrow (HttpError (status (res_response res)) "could not logout").

(** Lines 105-114. *)
Definition me (token : string) (answer : FetchResult D) : M D :=
  res ← api_GET "/users/me"
        {| params_path := []; params_query := []; body := None;
           headers := bearer token; parseAs := "json" |} answer;
  match res_data res with
  | Some d => mret d
  | None => mthrow (HttpError (status (res_response res)) "")
  end.

(** Lines 157-184. *)
Definition useCreateProject (project : JS) (answer : FetchResult D) : M JS :=
  res ← api_POST "/projects/new" (opts [] [] (Some project)) answer;
  match res_error res with
  | None => notify {| type := success; message := "Project created" |};;
            mret JUndefined
  | Some e => throw_detail e
  end.

(** Lines 191-204. *)
Definition useDeleteProject (projectSlug : string) (answer : FetchResult D) : M JS :=
  res ← api_POST "/projects/delete"
        (opts [] [("project_slug", JStr projectSlug)] None) answer;
  when (negb (present (res_error res)))
       (notify {| type := success; message := "Project deleted" |});;
  mret JUndefined.

(** Lines 212-232, the function given to [useAsyncMemo]. *)
Definition useStatistics (projectSlug : string) (currentScheme : option string)
    (answer : FetchResult D) : M (Maybe D) :=
  if truthy projectSlug then
    res ← api_GET "/projects/{project_slug}/statistics"
          (opts [("project_slug", JStr projectSlug)]
                [("scheme", js_string currentScheme)] None) answer;
    mret (data_or_undefined res)
  else mret undefined.

(** Lines 240-271, the function given to [useAsyncMemo]. *)
Definition useProject (projectSlug : option string) (answer : FetchResult D)
    : M (Maybe D) :=
  if truthy projectSlug then
    res ← api_GET "/projects/{project_slug}"
          (opts [("project_slug", js_string projectSlug)] [] None) answer;
    mret (data_or_undefined res)
  else mret undefined.

(** Lines 277-295. *)
Definition useDeleteScheme (projectSlug : string) (schemeName : option string)
    (answer : FetchResult D) : M JS :=
  if truthy schemeName then
    res ← api_POST "/schemes/{action}"
          (opts [("action", JStr "delete")] [("project_slug", JStr projectSlug)]
                (Some (JObj [("project_slug", JStr projectSlug);
                             ("name", js_string schemeName); ("tags", JNull)])))
          answer;
    when (negb (present (res_error res)))
         (notify {| type := success; message := "Scheme deleted" |});;
    mret JUndefined
  else mret JUndefined.

(** Lines 301-324. *)
Definition useAddScheme (projectSlug : string) (schemeName : string)
    (answer : FetchResult D) : M JS :=
  if truthy schemeName then
    res ← api_POST "/schemes/{action}"
          (opts [("action", JStr "add")] [("project_slug", JStr projectSlug)]
                (Some (JObj [("project_slug", JStr projectSlug);
                             ("name", JStr schemeName); ("tags", JNull)])))
          answer;
    when (negb (present (res_error res)))
         (notify {| type := success; message := "Scheme add" |});;
    mret (JBool true)
  else mret JUndefined.

(** Lines 329-361. *)
Definition useAddFeature (projectSlug : string)
    (featureType featureName : string) (featureParameters : JS)
    (answer : FetchResult D) : M JS :=
  console_log;;
  let featureParameters :=
    if negb (truthy featureParameters) then JObj [] else featureParameters in
  let featureName := if negb (truthy featureName) then featureType else featureName in
  if truthy featureType && truthy featureParameters then
    res ← api_POST "/features/add"
          (opts [] [("project_slug", JStr projectSlug)]
                (Some (JObj [("name", JStr featureName); ("type", JStr featureType);
                             ("parameters", featureParameters)])))
          answer;
    when (negb (present (res_error res)))
         (notify {| type := warning; message := "Features are under computation..." |});;
    mret (JBool true)
  else mret JUndefined.

(** Lines 368-387. *)
Definition useDeleteFeature (projectSlug : string) (featureName : option string)
    (answer : FetchResult D) : M JS :=
  if truthy featureName then
    res ← api_POST "/features/delete"
          (opts [] [("project_slug", JStr projectSlug);
                    ("name", js_string featureName)] None) answer;
    when (negb (present (res_error res)))
         (notify {| type := success; message := "Features deleted" |});;
    mret (JBool true)
  else mret JUndefined.

(** Lines 398-418. *)
Definition useGetNextElementId (projectSlug currentScheme : string)
    (selectionConfig : SelectionConfig) (answer : FetchResult NextElement) : M JS :=
  res ← api_POST "/elements/next"
        (opts [] [("project_slug", JStr projectSlug)]
              (Some (JObj [("scheme", JStr currentScheme);
                           ("selection", JStr (mode selectionConfig));
                           ("sample", JStr (sample selectionConfig));
                           ("tag", js_string (label selectionConfig));
                           ("history", JArr [])])))
        answer;
  mret (from_option (fun d => JStr (element_id d)) JUndefined (res_data res)).

(** Lines 442-459. *)
Definition useGetElementById (projectSlug currentScheme : string)
    (elementId : string) (answer : FetchResult D) : M (Maybe D) :=
  res ← api_GET "/elements/{element_id}"
        (opts [("element_id", JStr elementId)]
              [("project_slug", JStr projectSlug); ("scheme", JStr currentScheme)]
              None) answer;
  if negb (present (res_error res))
  then mret (data_or_undefined res)
  else mret null.

(** Lines 464-491. *)
Definition useAddAnnotation (projectSlug scheme username : string)
    (element_id tag : string) (answer : FetchResult D) : M JS :=
  res ← api_POST "/tags/{action}"
        (opts [("action", JStr "add")] [("project_slug", JStr projectSlug)]
              (Some (JObj [("project_slug", JStr projectSlug);
                           ("element_id", JStr element_id); ("tag", JStr tag);
                           ("user", JStr username); ("scheme", JStr scheme)])))
        answer;
  mret (JBool true).

(** Lines 496-514. *)
Definition useAddLabel (projectSlug scheme : string) (label : string)
    (answer : FetchResult D) : M JS :=
  res ← api_POST "/schemes/label/add"
        (opts [] [("project_slug", JStr projectSlug); ("scheme", JStr scheme);
                  ("label", JStr label)] None) answer;
  when (negb (present (res_error res)))
       (notify {| type := success; message := "New label created" |});;
  mret (JBool true).

(** Lines 519-537. *)
Definition useDeleteLabel (projectSlug scheme : string) (label : string)
    (answer : FetchResult D) : M JS :=
  res ← api_POST "/schemes/label/delete"
        (opts [] [("project_slug", JStr projectSlug); ("scheme", JStr scheme);
                  ("label", JStr label)] None) answer;
  when (negb (present (res_error res)))
       (notify {| type := success; message := "Label deleted" |});;
  mret (JBool true).

(** Lines 542-568. *)
Definition useRenameLabel (projectSlug scheme : string)
    (formerLabel newLabel : string) (answer : FetchResult D) : M JS :=
  res ← api_POST "/schemes/label/rename"
        (opts [] [("project_slug", JStr projectSlug); ("scheme", JStr scheme);
                  ("former_label", JStr formerLabel);
                  ("new_label", JStr newLabel)] None) answer;
  console_log;;
  (if negb (present (res_error res))
   then notify {| type := success; message := "Label renamed" |}
   else notify {| type := error; message := "Error when renamed" |});;
  mret (JBool true).
End Api.
End Api1.

(** * The later revision of [core/api.ts]
    (second document of [src/frontend/src/components/SimpleModelManagement.tsx];
    line numbers are those of that file) *)

Module Api2.
Section Api.
Context `{AuthProvider} `{Config} {D : Type}.

(** Lines 266-283. *)
Definition authMiddleware : Middleware :=
  {| onRequest := fun request =>
       authenticatedUserJSON ← localStorage_getItem "activeTigger.auth";
       let authenticatedUser :=
         match authenticatedUserJSON with
         | Some text => if truthy text then JSON_parse text else None
         | None => None
         end in
       match authenticatedUser with
       | Some user =>
           match getAuthHeaders user with
           | Some authHeaders =>
               mret (Some (with_headers request
                 (fold_left (fun h p =>
                               match Headers.get h (fst p) with
                               | None => Headers.set h (fst p) (snd p)
                               | Some _ => h
                               end)
                            authHeaders (req_headers request))))
           | None => mret (Some request)
           end
       | None => mret None
       end |}.

Definition api_GET {R : Type} := client_call (D := R) authMiddleware GET.
Definition api_POST {R : Type} := client_call (D := R) authMiddleware POST.

(** Lines 298-314. *)
Definition login (params : JS) (answer : FetchResult D) : M D :=
  res ← api_POST "/token"
        {| params_path := []; params_query := []; body := Some params;
           headers := [("Content-Type", "application/x-www-form-urlencoded")];
           parseAs := "json" |} answer;
  match res_data res, res_error res with
  | Some d, None => mret d
  | _, err =>
      console_log;;
      match err with
      | Some e => mthrow (HttpError (status (res_response res))
                                    (detail_to_string (detail e)))
      | None => mthrow TypeError
      end
  end.

(** Lines 321-337. *)
Definition logout (token : string) (answer : FetchResult D) : M bool :=
  res ← api_POST "/users/disconnect"
        {| params_path := []; params_query := []; body := None;
           headers := bearer token; parseAs := "json" |} answer;
  if Z.eqb (status (res_response res)) 200 then mret true
  else console_log;;
       mthrow (HttpError (status (res_response res)) "could not logout").

(** Lines 344-353. *)
Definition me (token : string) (answer : FetchResult D) : M D :=
  res ← api_GET "/users/me"
        {| params_path := []; params_query := []; body := None;
           headers := bearer token; parseAs := "json" |} answer;
  match res_data res with
  | Some d => mret d
  | None => mthrow (HttpError (status (res_response res)) "")
  end.

(** Lines 396-423. *)
Definition useCreateProject (project : JS) (answer : FetchResult D) : M JS :=
  res ← api_POST "/projects/new" (opts [] [] (Some project)) answer;
  match res_error res with
  | None => notify {| type := success; message := "Project created" |};;
            mret JUndefined
  | Some e => throw_detail e
  end.

(** Lines 428-449. *)
Definition useCreateTestSet (projectSlug : string) (testset : JS)
    (answer : FetchResult D) : M JS :=
  res ← api_POST "/projects/testset"
        (opts [] [("project_slug", JStr projectSlug)] (Some testset)) answer;
  match res_error res with
  | None => notify {| type := success; message := "Test data set uploaded" |};;
            mret JUndefined
  | Some e => throw_detail e
  end.

(** Lines 456-472. *)
Definition useDeleteProject (projectSlug : string) (answer : FetchResult D) : M JS :=
  res ← api_POST "/projects/delete"
        (opts [] [("project_slug", JStr projectSlug)] None) answer;
  when (negb (present (res_error res)))
       (notify {| type := success; message := "Project deleted" |});;
  mret JUndefined.

(** Lines 480-504, the function given to [useAsyncMemo]. *)
Definition useStatistics (projectSlug currentScheme : option string)
    (answer : FetchResult D) : M (Maybe D) :=
  if truthy projectSlug && truthy currentScheme then
    res ← api_GET "/projects/{project_slug}/statistics"
          (opts [("project_slug", js_string projectSlug)]
                [("scheme", js_string currentScheme)] None) answer;
    mret (data_or_undefined res)
  else mret null.

(** Lines 512-543, the function given to [useAsyncMemo]. *)
Definition useProject (projectSlug : option string) (answer : FetchResult D)
    : M (Maybe D) :=
  if truthy projectSlug then
    res ← api_GET "/projects/{project_slug}"
          (opts [("project_slug", js_string projectSlug)] [] None) answer;
    mret (data_or_undefined res)
  else mret null.

(** Lines 549-567. *)
Definition useDeleteScheme (projectSlug : string) (schemeName : option string)
    (answer : FetchResult D) : M JS :=
  if truthy schemeName then
    res ← api_POST "/schemes/{action}"
          (opts [("action", JStr "delete")] [("project_slug", JStr projectSlug)]
                (Some (JObj [("project_slug", JStr projectSlug);
                             ("name", js_string schemeName); ("tags", JNull)])))
          answer;
    when (negb (present (res_error res)))
         (notify {| type := success; message := "Scheme deleted" |});;
    mret JUndefined
  else mret JUndefined.

(** Lines 573-597. *)
Definition useAddScheme (projectSlug : string) (schemeName : string)
    (answer : FetchResult D) : M JS :=
  if truthy schemeName then
    res ← api_POST "/schemes/{action}"
          (opts [("action", JStr "add")] [("project_slug", JStr projectSlug)]
                (Some (JObj [("project_slug", JStr projectSlug);
                             ("name", JStr schemeName); ("tags", JNull)])))
          answer;
    when (negb (present (res_error res)))
         (notify {| type := success; message := "Scheme add" |});;
    mret (JBool true)
  else mret JNull.

(** Lines 602-633. *)
Definition useAddFeature (projectSlug : option string)
    (featureType featureName : string)
    (featureParameters : option (list (string * JS)))
    (answer : FetchResult D) : M JS :=
  console_log;;
  let featureName := if negb (truthy featureName) then featureType else featureName in
  if truthy featureType && present featureParameters && truthy projectSlug then
    res ← api_POST "/features/add"
          (opts [] [("project_slug", js_string projectSlug)]
                (Some (JObj [("name", JStr featureName);
                             ("type", JStr featureType);
                             ("parameters", from_option JObj JNull featureParameters)])))
          answer;
    when (negb (present (res_error res)))
         (notify {| type := warning;
                    message := "Features are under computation..." |});;
    mret (JBool true)
  else mret (JBool false).

(** Lines 640-660. *)
Definition useDeleteFeature (projectSlug : option string)
    (featureName : option string) (answer : FetchResult D) : M JS :=
  if truthy featureName && truthy projectSlug then
    res ← api_POST "/features/delete"
          (opts [] [("project_slug", js_string projectSlug);
                    ("name", js_string featureName)] None) answer;
    when (negb (present (res_error res)))
         (notify {| type := success; message := "Features deleted" |});;
    mret (JBool true)
  else mret (JBool false).

(** Lines 671-708. *)
Definition useGetNextElementId (projectSlug currentScheme : option string)
    (selectionConfig : SelectionConfig) (history : list string) (phase : string)
    (answer : FetchResult NextElement) : M JS :=
  if truthy projectSlug && truthy currentScheme then
    res ← api_POST "/elements/next"
          (opts [] [("project_slug", js_string projectSlug)]
                (Some (JObj
                  [("scheme", js_string currentScheme);
                   ("selection",
                    JStr (if String.eqb phase "test" then "test"
                          else mode selectionConfig));
                   ("sample", JStr (sample selectionConfig));
                   ("tag", js_string (label selectionConfig));
                   ("filter", js_string (filter selectionConfig));
                   ("history", js_strings history);
                   ("frame",
                    if truthy (frameSelection selectionConfig)
                    then from_option (fun l => JArr (map JNum l)) JUndefined
                                     (frame selectionConfig)
                    else JArr [])])))
          answer;
    mret (from_option (fun d => JStr (element_id d)) JUndefined (res_data res))
  else
    notify {| type := error;
              message := "Select a project/scheme to get elements" |};;
    mret JNull.

(** Lines 713-732. *)
Definition useGetElementById (projectSlug currentScheme : option string)
    (elementId dataset : string) (answer : FetchResult D) : M (Maybe D) :=
  if truthy projectSlug && truthy currentScheme then
    res ← api_GET "/elements/{element_id}"
          (opts [("element_id", JStr elementId)]
                [("project_slug", js_string projectSlug);
                 ("scheme", js_string currentScheme); ("dataset", JStr dataset)]
                None) answer;
    console_log;;
    if negb (present (res_error res)) then mret (data_or_undefined res)
    else mret null
  else mret null.

(** Lines 737-769. *)
Definition useAddAnnotation (projectSlug scheme : option string) (dataset : string)
    (element_id label : string) (answer : FetchResult D) : M JS :=
  if truthy projectSlug && truthy scheme then
    _ ← api_POST "/annotation/{action}"
          (opts [("action", JStr "add")] [("project_slug", js_string projectSlug)]
                (Some (JObj [("project_slug", js_string projectSlug);
                             ("element_id", JStr element_id);
                             ("label", JStr label);
                             ("scheme", js_string scheme);
                             ("dataset", JStr dataset)])))
          answer;
    mret (JBool true)
  else mret (JBool false).

(** Lines 774-803. *)
Definition useAddTableAnnotations (projectSlug scheme dataset : option string)
    (table : list JS) (answer : FetchResult D) : M JS :=
  if truthy projectSlug && truthy scheme then
    res ← api_POST "/annotation/table"
          (opts [] [("project_slug", js_string projectSlug)]
                (Some (JObj [("annotations", JArr table);
                             ("dataset", JStr (or_string dataset "train"))])))
          answer;
    when (negb (present (res_error res)))
         (notify {| type := success; message := "Annotations added" |});;
    mret (JBool true)
  else mret (JBool false).

(** Lines 808-829. *)
Definition useAddLabel (projectSlug scheme : option string) (label : string)
    (answer : FetchResult D) : M JS :=
  if truthy projectSlug && truthy scheme then
    res ← api_POST "/schemes/label/add"
          (opts [] [("project_slug", js_string projectSlug);
                    ("scheme", js_string scheme); ("label", JStr label)] None)
          answer;
    when (negb (present (res_error res)))
         (notify {| type := success; message := "New label created" |});;
    mret (JBool true)
  else mret (JBool false).

(** Lines 834-855. *)
Definition useDeleteLabel (projectSlug scheme : option string) (label : string)
    (answer : FetchResult D) : M JS :=
  if truthy projectSlug && truthy scheme then
    res ← api_POST "/schemes/label/delete"
          (opts [] [("project_slug", js_string projectSlug);
                    ("scheme", js_string scheme); ("label", JStr label)] None)
          answer;
    when (negb (present (res_error res)))
         (notify {| type := success; message := "Label deleted" |});;
    mret (JBool true)
  else mret (JBool false).

(** Lines 860-886. *)
Definition useRenameLabel (projectSlug scheme : option string)
    (formerLabel newLabel : string) (answer : FetchResult D) : M JS :=
  (if truthy projectSlug && truthy scheme then
     res ← api_POST "/schemes/label/rename"
           (opts [] [("project_slug", js_string projectSlug);
                     ("scheme", js_string scheme);
                     ("former_label", JStr formerLabel);
                     ("new_label", JStr newLabel)] None) answer;
     if negb (present (res_error res))
     then notify {| type := success; message := "Label renamed" |}
     else notify {| type := error; message := "Error when renamed" |}
   else mret tt);;
  mret (JBool true).

(** Lines 888-917. *)
Definition useUpdateSimpleModel (projectSlug scheme : option string)
    (formData : SimpleModelModel) (answer : FetchResult D) : M JS :=
  (if truthy projectSlug && present (sm_features formData) && truthy scheme
      && truthy (sm_model formData) && present (sm_params formData) then
     res ← api_POST "/models/simplemodel"
           (opts [] [("project_slug", js_string projectSlug)]
                 (Some (JObj
                   [("features", from_option js_strings JUndefined (sm_features formData));
                    ("scheme", js_string scheme);
                    ("model", js_string (sm_model formData));
                    ("params", default JUndefined (sm_params formData));
                    ("standardize", JBool true)])))
           answer;
     when (negb (present (res_error res)))
          (notify {| type := warning; message := "Model under training" |})
   else mret tt);;
  mret (JBool true).

(** Lines 922-939, the function given to [useAsyncMemo]. *)
Definition useUsersAuth (projectSlug : option string)
    (answer : FetchResult ProjectAuth) : M (Maybe JS) :=
  if truthy projectSlug then
    res ← api_GET "/auth/project"
          (opts [] [("project_slug", js_string projectSlug)] None) answer;
    match res_error res, res_data res with
    | None, Some d => mret (value (auth d))
    | None, None => mthrow TypeError
    | Some _, _ => mret null
    end
  else mret null.

(** Lines 944-965. *)
Definition useDeleteUserAuthProject (projectSlug : option string)
    (username : option string) (answer : FetchResult D) : M JS :=
  if truthy projectSlug && truthy username then
    res ← api_POST "/users/auth/{action}"
          (opts [("action", JStr "delete")]
                [("project_slug", js_string projectSlug);
                 ("username", js_string username)] None) answer;
    when (negb (present (res_error res)))
         (notify {| type := success; message := "Auth deleted for user" |});;
    emit (Called "reFetchUsersAuth");;
    mret (JBool true)
  else mret JNull.

(** Lines 987-1006. *)
Definition useCreateUser (username password status : string)
    (answer : FetchResult D) : M JS :=
  res ← api_POST "/users/create"
        (opts [] [("username_to_create", JStr username);
                  ("password", JStr password); ("status", JStr status)] None)
        answer;
  when (negb (present (res_error res)))
       (notify {| type := success; message := "User created" |});;
  emit (Called "reFetchUsers");;
  mret (JBool true).

(** Lines 1011-1032. *)
Definition useDeleteUser (username : option string) (answer : FetchResult D) : M JS :=
  if truthy username then
    res ← api_POST "/users/delete"
          (opts [] [("user_to_delete", js_string username)] None) answer;
    when (negb (present (res_error res)))
         (notify {| type := success; message := "User deleted" |});;
    emit (Called "reFetchUsers");;
    mret (JBool true)
  else mret JNull.

(** Lines 1037-1058. *)
Definition useAddUserAuthProject (projectSlug : option string)
    (username auth : string) (answer : FetchResult D) : M JS :=
  if truthy projectSlug && truthy username then
    res ← api_POST "/users/auth/{action}"
          (opts [("action", JStr "add")]
                [("project_slug", js_string projectSlug);
                 ("username", JStr username); ("status", JStr auth)] None) answer;
    when (negb (present (res_error res)))
         (notify {| type := success; message := "Auth deleted for user" |});;
    emit (Called "reFetchUsersAuth");;
    mret (JBool true)
  else mret JNull.

(** Lines 1063-1090. *)
Definition useTrainBertModel (projectSlug scheme : option string)
    (dataForm : newBertModel) (answer : FetchResult D) : M JS :=
  if truthy projectSlug && truthy scheme && truthy dataForm then
    res ← api_POST "/models/bert/train"
          (opts [] [("project_slug", js_string projectSlug)]
                (Some (JObj [("project_slug", js_string projectSlug);
                             ("scheme", js_string scheme);
                             ("base_model", JStr (bm_base dataForm));
                             ("name", JStr (or_string (bm_name dataForm) ""));
                             ("test_size", JDec "0.2");
                             ("params", bm_parameters dataForm)])))
          answer;
    when (negb (present (res_error res)))
         (notify {| type := warning; message := "Starting bertmodel training" |});;
    mret (JBool true)
  else mret JNull.

(** Lines 1095-1118. *)
Definition useRenameBertModel (projectSlug : option string)
    (former_model_name new_model_name : string) (answer : FetchResult D) : M JS :=
  if truthy projectSlug then
    res ← api_POST "/models/bert/rename"
          (opts [] [("project_slug", js_string projectSlug);
                    ("former_name", JStr former_model_name);
                    ("new_name", JStr new_model_name)] None) answer;
    when (negb (present (res_error res)))
         (notify {| type := success; message := "Model renamed" |});;
    mret (JBool true)
  else mret JNull.

(** Lines 1123-1145. *)
Definition useDeleteBertModel (projectSlug : option string) (model_name : string)
    (answer : FetchResult D) : M JS :=
  if truthy projectSlug then
    res ← api_POST "/models/bert/delete"
          (opts [] [("project_slug", js_string projectSlug);
                    ("bert_name", JStr model_name)] None) answer;
    when (negb (present (res_error res)))
         (notify {| type := success; message := "Model deleted" |});;
    mret (JBool true)
  else mret JNull.

(** Lines 1150-1166, the function given to [useAsyncMemo]. *)
Definition useModelInformations (project_slug model_name : option string)
    (answer : FetchResult D) : M (Maybe D) :=
  if truthy model_name && truthy project_slug then
    res ← api_GET "/models/bert"
          (opts [] [("project_slug", js_string project_slug);
                    ("name", js_string model_name)] None) answer;
    if negb (present (res_error res)) then mret (data_or_undefined res)
    else mret null
  else mret null.

(** Lines 1171-1194. *)
Definition useComputeModelPrediction (projectSlug : option string)
    (model_name : string) (answer : FetchResult D) : M JS :=
  if truthy projectSlug then
    res ← api_POST "/models/bert/predict"
          (opts [] [("project_slug", js_string projectSlug);
                    ("model_name", JStr model_name)] None) answer;
    when (negb (present (res_error res)))
         (notify {| type := warning;
                    message := "Computing prediction. It can take some time." |});;
    mret (JBool true)
  else mret JNull.

(** Lines 1199-1228. *)
Definition useGetFeaturesFile (projectSlug : option string)
    (features : list string) (format : string)
    (answer : FetchResult string) : M JS :=
  if truthy projectSlug then
    res ← api_GET "/export/features"
          {| params_path := [];
             params_query := [("project_slug", js_string projectSlug);
                              ("features", js_strings features);
                              ("format", JStr format)];
             body := None; headers := []; parseAs := "blob" |} answer;
    console_log;;
    when (negb (present (res_error res)))
         (notify {| type := success;
                    message := "Exporting the predictions of the model" |};;
          saveAs (res_data res) ("features." ++ format));;
    mret (JBool true)
  else mret JNull.

(** Lines 1233-1262. *)
Definition useGetAnnotationsFile (projectSlug : option string)
    (scheme format : string) (answer : FetchResult string) : M JS :=
  if truthy projectSlug then
    res ← api_GET "/export/data"
          {| params_path := [];
             params_query := [("project_slug", js_string projectSlug);
                              ("scheme", JStr scheme); ("format", JStr format)];
             body := None; headers := []; parseAs := "blob" |} answer;
    console_log;;
    when (negb (present (res_error res)))
         (notify {| type := success; message := "Exporting the annotated data" |};;
          saveAs (res_data res) ("annotations." ++ format));;
    mret (JBool true)
  else mret JNull.

(** Lines 1267-1296. *)
Definition useGetPredictionsFile (projectSlug : option string)
    (model format : string) (answer : FetchResult string) : M JS :=
  if truthy projectSlug then
    res ← api_GET "/export/prediction"
          {| params_path := [];
             params_query := [("project_slug", js_string projectSlug);
                              ("name", JStr model); ("format", JStr format)];
             body := None; headers := []; parseAs := "blob" |} answer;
    console_log;;
    when (negb (present (res_error res)))
         (notify {| type := success; message := "Exporting the predictions data" |};;
          saveAs (res_data res) ("predictions." ++ format));;
    mret (JBool true)
  else mret JNull.

(** Lines 1301-1321, the function given to [useAsyncMemo]. *)
Definition useGetModelUrl (projectSlug model : option string)
    (answer : FetchResult string) : M (Maybe string) :=
  if truthy projectSlug && truthy model then
    res ← api_GET "/export/bert"
          (opts [] [("project_slug", js_string projectSlug);
                    ("name", js_string model)] None) answer;
    if negb (present (res_error res))
    then mret (value (api_url ++ from_option id "undefined" (res_data res)))
    else mret null
  else mret null.

(** Lines 1330-1369: the initial state, [getPage] and the function given
    to [useAsyncMemo], which reads the state and may set [total]. *)
Definition useTableElements_init (initialPage initialPageSize : option Z)
    : TableElements :=
  {| pageInfo := {| pageIndex := or_default initialPage 1;
                    pageSize := or_default initialPageSize 10 |};
     table_total := 0 |}.

Definition getPage (p : PageInfo) (st : TableElements) : TableElements :=
  {| pageInfo := p; table_total := table_total st |}.

Definition table_query (project_slug scheme search sample dataset : option string)
    (st : TableElements) : list (string * JS) :=
  [("project_slug", js_string project_slug);
   ("scheme", js_string scheme);
   ("min", JNum ((pageIndex (pageInfo st) - 1) * pageSize (pageInfo st)));
   ("max", JNum (Z.min (pageIndex (pageInfo st) * pageSize (pageInfo st))
                       (table_total st)));
   ("contains", js_string search);
   ("mode", JStr (or_string sample "all"));
   ("dataset", JStr (or_string dataset "train"))].

Definition useTableElements (project_slug scheme search sample dataset : option string)
    (st : TableElements) (answer : FetchResult TablePage)
    : M (Maybe JS * TableElements) :=
  if truthy scheme && truthy project_slug then
    res ← api_GET "/elements/table"
          (opts [] (table_query project_slug scheme search sample dataset st) None)
          answer;
    match res_error res, res_data res with
    | None, Some d =>
        mret (value (items d),
              {| pageInfo := pageInfo st; table_total := total d |})
    | None, None => mthrow TypeError
    | Some _, _ => mret (null, st)
    end
  else mret (null, st).

(** Lines 1374-1405. *)
Definition useUpdateProjection (projectSlug scheme : option string)
    (formData : ProjectionInStrictModel) (answer : FetchResult D) : M JS :=
  console_log;;
  console_log;;
  (if truthy projectSlug && present (pj_features formData) && truthy scheme
      && present (pj_params formData) then
     res ← api_POST "/elements/projection/compute"
           (opts [] [("project_slug", js_string projectSlug)]
                 (Some (JObj
                   [("method", JStr (pj_method formData));
                    ("features", from_option js_strings JUndefined (pj_features formData));
                    ("params", default JUndefined (pj_params formData))])))
           answer;
     when (negb (present (res_error res)))
          (notify {| type := warning; message := "Projection under training" |})
   else mret tt);;
  mret (JBool true).

(** Lines 1410-1432, the function given to [useAsyncMemo]. *)
Definition useGetProjectionData (project_slug scheme : option string)
    (answer : FetchResult D) : M (Maybe D) :=
  if truthy scheme && truthy project_slug then
    res ← api_GET "/elements/projection"
          (opts [] [("project_slug", js_string project_slug);
                    ("scheme", js_string scheme)] None) answer;
    if negb (present (res_error res))
    then mret (from_option value null (res_data res))
    else mret null
  else mret null.

(** Lines 1457-1476, the function given to [useAsyncMemo]. *)
Definition useTableDisagreement (project_slug scheme : option string)
    (answer : FetchResult D) : M (Maybe D) :=
  if truthy scheme && truthy project_slug then
    res ← api_GET "/elements/reconciliate"
          (opts [] [("project_slug", js_string project_slug);
                    ("scheme", js_string scheme)] None) answer;
    if negb (present (res_error res)) && present (res_data res)
    then mret (data_or_undefined res)
    else mret null
  else mret null.

(** Lines 1481-1508. *)
Definition useReconciliate (projectSlug : string) (scheme : option string)
    (element_id label : string) (users : list string)
    (answer : FetchResult D) : M JS :=
  if truthy scheme && truthy projectSlug then
    res ← api_POST "/elements/reconciliate"
          (opts [] [("project_slug", JStr projectSlug);
                    ("users", js_strings users);
                    ("scheme", js_string scheme);
                    ("element_id", JStr element_id);
                    ("label", JStr label)] None) answer;
    when (negb (present (res_error res)))
         (notify {| type := success; message := "Reconciliation done" |});;
    mret (JBool true)
  else mret JNull.
End Api.
End Api2.

(** * The catalogue of hook functions

    The functions returned by the hooks, with their arguments, so that a
    statement can range over all of them. *)

Definition void {A} (m : M A) : M unit := _ ← m; mret tt.

(** The operations by kind: those that start a long-running job on the
    server (add feature, train simple model, train BERT model, compute
    projection, compute prediction), those whose mutation completes
    immediately (add, delete and rename label, add and delete scheme,
    create and delete project), and the others. *)
Inductive Kind := LongJob | Immediate | Other.

(** A call is made with a required parameter missing. *)
Definition missing (l : list bool) : bool := existsb negb l.

Module Hooks1.
Section Hooks.
Context `{AuthProvider} {D : Type}.

(** The functions that change something on the server. *)
Inductive Mutation : Type :=
| CreateProject (project : JS)
| DeleteProject (projectSlug : string)
| DeleteScheme (projectSlug : string) (schemeName : option string)
| AddScheme (projectSlug schemeName : string)
| AddFeature (projectSlug featureType featureName : string) (featureParameters : JS)
| DeleteFeature (projectSlug : string) (featureName : option string)
| AddAnnotation (projectSlug scheme username element_id tag : string)
| AddLabel (projectSlug scheme label : string)
| DeleteLabel (projectSlug scheme label : string)
| RenameLabel (projectSlug scheme formerLabel newLabel : string).

Definition run (m : Mutation) (answer : FetchResult D) : M JS :=
  match m with
  | CreateProject p => Api1.useCreateProject p answer
  | DeleteProject s => Api1.useDeleteProject s answer
  | DeleteScheme s n => Api1.useDeleteScheme s n answer
  | AddScheme s n => Api1.useAddScheme s n answer
  | AddFeature s t n p => Api1.useAddFeature s t n p answer
  | DeleteFeature s n => Api1.useDeleteFeature s n answer
  | AddAnnotation s c u e t => Api1.useAddAnnotation s c u e t answer
  | AddLabel s c l => Api1.useAddLabel s c l answer
  | DeleteLabel s c l => Api1.useDeleteLabel s c l answer
  | RenameLabel s c f n => Api1.useRenameLabel s c f n answer
  end.

(** The only one that raises on an error response. *)
Definition raises (m : Mutation) : bool :=
  match m with CreateProject _ => true | _ => false end.

(** The parameters of a call that may be null and that the request
    needs; [true] when given. *)
Definition required (m : Mutation) : list bool :=
  match m with
  | DeleteScheme _ n | DeleteFeature _ n => [present n]
  | _ => []
  end.

Definition kind (m : Mutation) : Kind :=
  match m with
  | AddFeature _ _ _ _ => LongJob
  | AddLabel _ _ _ | DeleteLabel _ _ _ | RenameLabel _ _ _ _
  | AddScheme _ _ | DeleteScheme _ _ | CreateProject _ | DeleteProject _ => Immediate
  | _ => Other
  end.

(** The message that announces the job that a mutation starts. *)
Definition announcement (m : Mutation) : string :=
  match m with
  | AddFeature _ _ _ _ => "Features are under computation..."
  | _ => ""
  end.
End Hooks.
End Hooks1.

Module Hooks2.
Section Hooks.
Context `{AuthProvider} `{Config} {D : Type}.

(** The functions that change something on the server. *)
Inductive Mutation : Type :=
| CreateProject (project : JS)
| CreateTestSet (projectSlug : string) (testset : JS)
| DeleteProject (projectSlug : string)
| DeleteScheme (projectSlug : string) (schemeName : option string)
| AddScheme (projectSlug schemeName : string)
| AddFeature (projectSlug : option string) (featureType featureName : string)
             (featureParameters : option (list (string * JS)))
| DeleteFeature (projectSlug featureName : option string)
| AddAnnotation (projectSlug scheme : option string)
                (dataset element_id label : string)
| AddTableAnnotations (projectSlug scheme dataset : option string) (table : list JS)
| AddLabel (projectSlug scheme : option string) (label : string)
| DeleteLabel (projectSlug scheme : option string) (label : string)
| RenameLabel (projectSlug scheme : option string) (formerLabel newLabel : string)
| UpdateSimpleModel (projectSlug scheme : option string) (formData : SimpleModelModel)
| DeleteUserAuthProject (projectSlug username : option string)
| CreateUser (username password status : string)
| DeleteUser (username : option string)
| AddUserAuthProject (projectSlug : option string) (username auth : string)
| TrainBertModel (projectSlug scheme : option string) (dataForm : newBertModel)
| RenameBertModel (projectSlug : option string)
                  (former_model_name new_model_name : string)
| DeleteBertModel (projectSlug : option string) (model_name : string)
| ComputeModelPrediction (projectSlug : option string) (model_name : string)
| UpdateProjection (projectSlug scheme : option string)
                   (formData : ProjectionInStrictModel)
| Reconciliate (projectSlug : string) (scheme : option string)
               (element_id label : string) (users : list string).

Definition run (m : Mutation) (answer : FetchResult D) : M JS :=
  match m with
  | CreateProject p => Api2.useCreateProject p answer
  | CreateTestSet s t => Api2.useCreateTestSet s t answer
  | DeleteProject s => Api2.useDeleteProject s answer
  | DeleteScheme s n => Api2.useDeleteScheme s n answer
  | AddScheme s n => Api2.useAddScheme s n answer
  | AddFeature s t n p => Api2.useAddFeature s t n p answer
  | DeleteFeature s n => Api2.useDeleteFeature s n answer
  | AddAnnotation s c d e l => Api2.useAddAnnotation s c d e l answer
  | AddTableAnnotations s c d t => Api2.useAddTableAnnotations s c d t answer
  | AddLabel s c l => Api2.useAddLabel s c l answer
  | DeleteLabel s c l => Api2.useDeleteLabel s c l answer
  | RenameLabel s c f n => Api2.useRenameLabel s c f n answer
  | UpdateSimpleModel s c f => Api2.useUpdateSimpleModel s c f answer
  | DeleteUserAuthProject s u => Api2.useDeleteUserAuthProject s u answer
  | CreateUser u p s => Api2.useCreateUser u p s answer
  | DeleteUser u => Api2.useDeleteUser u answer
  | AddUserAuthProject s u a => Api2.useAddUserAuthProject s u a answer
  | TrainBertModel s c f => Api2.useTrainBertModel s c f answer
  | RenameBertModel s f n => Api2.useRenameBertModel s f n answer
  | DeleteBertModel s n => Api2.useDeleteBertModel s n answer
  | ComputeModelPrediction s n => Api2.useComputeModelPrediction s n answer
  | UpdateProjection s c f => Api2.useUpdateProjection s c f answer
  | Reconciliate s c e l u => Api2.useReconciliate s c e l u answer
  end.

(** The ones that raise on an error response. *)
Definition raises (m : Mutation) : bool :=
  match m with CreateProject _ | CreateTestSet _ _ => true | _ => false end.

(** The parameters of a call that may be null or undefined and that the
    request needs; [true] when given. *)
Definition required (m : Mutation) : list bool :=
  match m with
  | CreateProject _ | CreateTestSet _ _ | DeleteProject _ | AddScheme _ _
  | CreateUser _ _ _ => []
  | DeleteScheme _ n => [present n]
  | AddFeature s _ _ p => [present s; present p]
  | DeleteFeature s n => [present s; present n]
  | AddAnnotation s c _ _ _ => [present s; present c]
  | AddTableAnnotations s c _ _ => [present s; present c]
  | AddLabel s c _ | DeleteLabel s c _ | RenameLabel s c _ _ => [present s; present c]
  | UpdateSimpleModel s c f =>
      [present s; present c; present (sm_features f); present (sm_model f);
       present (sm_params f)]
  | DeleteUserAuthProject s u => [present s; present u]
  | DeleteUser u => [present u]
  | AddUserAuthProject s _ _ => [present s]
  | TrainBertModel s c _ => [present s; present c]
  | RenameBertModel s _ _ | DeleteBertModel s _ | ComputeModelPrediction s _ =>
      [present s]
  | UpdateProjection s c f =>
      [present s; present c; present (pj_features f); present (pj_params f)]
  | Reconciliate _ c _ _ _ => [present c]
  end.

Definition kind (m : Mutation) : Kind :=
  match m with
  | AddFeature _ _ _ _ | UpdateSimpleModel _ _ _ | TrainBertModel _ _ _
  | UpdateProjection _ _ _ | ComputeModelPrediction _ _ => LongJob
  | AddLabel _ _ _ | DeleteLabel _ _ _ | RenameLabel _ _ _ _
  | AddScheme _ _ | DeleteScheme _ _ | CreateProject _ | DeleteProject _ => Immediate
  | _ => Other
  end.

(** The message that announces the job that a mutation starts. *)
Definition announcement (m : Mutation) : string :=
  match m with
  | AddFeature _ _ _ _ => "Features are under computation..."
  | UpdateSimpleModel _ _ _ => "Model under training"
  | TrainBertModel _ _ _ => "Starting bertmodel training"
  | UpdateProjection _ _ _ => "Projection under training"
  | ComputeModelPrediction _ _ => "Computing prediction. It can take some time."
  | _ => ""
  end.

(** The functions that read from the server: the callbacks of the
    "get" hooks and the functions given to [useAsyncMemo]. *)
Inductive Query : Type :=
| Statistics (projectSlug currentScheme : option string)
| Project (projectSlug : option string)
| GetNextElementId (projectSlug currentScheme : option string)
                   (selectionConfig : SelectionConfig) (history : list string)
                   (phase : string)
| GetElementById (projectSlug currentScheme : option string)
                 (elementId dataset : string)
| UsersAuth (projectSlug : option string)
| ModelInformations (project_slug model_name : option string)
| GetFeaturesFile (projectSlug : option string) (features : list string)
                  (format : string)
| GetAnnotationsFile (projectSlug : option string) (scheme format : string)
| GetPredictionsFile (projectSlug : option string) (model format : string)
| GetModelUrl (projectSlug model : option string)
| GetTableElements (project_slug scheme search sample dataset : option string)
                   (st : TableElements)
| GetProjectionData (project_slug scheme : option string)
| TableDisagreement (project_slug scheme : option string).

(** The type of the payload that the server sends for a query. *)
Definition payload (q : Query) : Type :=
  match q with
  | GetNextElementId _ _ _ _ _ => NextElement
  | UsersAuth _ => ProjectAuth
  | GetFeaturesFile _ _ _ | GetAnnotationsFile _ _ _ | GetPredictionsFile _ _ _
  | GetModelUrl _ _ => string
  | GetTableElements _ _ _ _ _ _ => TablePage
  | _ => D
  end.

Definition ask (q : Query) : FetchResult (payload q) -> M unit :=
  match q with
  | Statistics s c => fun answer => void (Api2.useStatistics s c answer)
  | Project s => fun answer => void (Api2.useProject s answer)
  | GetNextElementId s c sel h p =>
      fun answer => void (Api2.useGetNextElementId s c sel h p answer)
  | GetElementById s c e d => fun answer => void (Api2.useGetElementById s c e d answer)
  | UsersAuth s => fun answer => void (Api2.useUsersAuth s answer)
  | ModelInformations s n => fun answer => void (Api2.useModelInformations s n answer)
  | GetFeaturesFile s f fmt => fun answer => void (Api2.useGetFeaturesFile s f fmt answer)
  | GetAnnotationsFile s c fmt =>
      fun answer => void (Api2.useGetAnnotationsFile s c fmt answer)
  | GetPredictionsFile s m fmt =>
      fun answer => void (Api2.useGetPredictionsFile s m fmt answer)
  | GetModelUrl s m => fun answer => void (Api2.useGetModelUrl s m answer)
  | GetTableElements s c se sa d st =>
      fun answer => void (Api2.useTableElements s c se sa d st answer)
  | GetProjectionData s c => fun answer => void (Api2.useGetProjectionData s c answer)
  | TableDisagreement s c => fun answer => void (Api2.useTableDisagreement s c answer)
  end.

Definition query_required (q : Query) : list bool :=
  match q with
  | Statistics s c | GetNextElementId s c _ _ _ | GetElementById s c _ _
  | ModelInformations s c | GetModelUrl s c | GetTableElements s c _ _ _ _
  | GetProjectionData s c | TableDisagreement s c => [present s; present c]
  | Project s | UsersAuth s | GetFeaturesFile s _ _ | GetAnnotationsFile s _ _
  | GetPredictionsFile s _ _ => [present s]
  end.

(** The notification that a hook specifies for a call with a missing
    parameter: only [useGetNextElementId] has one. *)
Definition skip_notice (q : Query) : list NotificationData :=
  match q with
  | GetNextElementId _ _ _ _ _ =>
      [{| type := error; message := "Select a project/scheme to get elements" |}]
  | _ => []
  end.
End Hooks.
End Hooks2.

(** * The auth context *)

Module Auth.
(** Modelled from the spec: the Credential and the Auth Header Provider of
    [core/auth], which is not among the sources.  The credential is an
    opaque bearer token plus a user name, persisted as serialised JSON
    under one storage key; the provider returns a header map containing
    the bearer token. *)
Record Credential := { username : string; token : string }.

Definition quote : string := String "034"%char EmptyString.

(** Modelled from the spec: the serialised credential, a JSON object with
    the user name and the token. *)
Definition stringify (c : Credential) : string :=
  "{" ++ quote ++ "username" ++ quote ++ ":" ++ quote ++ username c ++ quote
      ++ "," ++ quote ++ "token" ++ quote ++ ":" ++ quote
      ++ token c ++ quote ++ "}".

(** The pieces of a text between double quotes, outermost first. *)
Fixpoint split_quotes (s : string) (piece : string) : list string :=
  match s with
  | EmptyString => [piece]
  | String c r =>
      if Ascii.eqb c "034"%char then piece :: split_quotes r EmptyString
      else split_quotes r (piece ++ String c EmptyString)
  end.

(** Modelled from the spec: the credential read back from its serialised
    form. *)
Definition parse (text : string) : option Credential :=
  match split_quotes text EmptyString with
  | [ "{"; "username"; ":"; u; ","; "token"; ":"; t; "}" ] =>
      Some {| username := u; token := t |}
  | _ => None
  end.

(** Modelled from the spec: the Auth Header Provider returns a header map
    containing the bearer token. *)
Definition bearer_headers (c : Credential) : option (list (string * string)) :=
  Some [("Authorization", "Bearer " ++ token c)].

Definition provider : AuthProvider :=
  {| User := Credential; JSON_parse := parse; getAuthHeaders := bearer_headers |}.

Definition storage_key : string := "activeTigger.auth".

(** Modelled from the spec: the credential is cleared at logout. *)
Definition clear : M unit :=
  fun w => (Returned tt,
            {| localStorage := delete storage_key (localStorage w);
               trace := trace w |}).

(** Modelled from the spec: the logout of the auth context, which is not
    among the sources: a logout request returning HTTP 200 clears local
    state; any non-200 response raises an error without clearing it. *)
Definition logout_flow `{AuthProvider} {D : Type}
    (token : string) (answer : FetchResult D) : M unit :=
  _ ← Api2.logout token answer;
  clear.
End Auth.

(** * The Async-Resource Hook *)

Module AsyncMemo.
Section Hook.
Context {V : Type}.

(** Modelled from the spec: [core/useAsyncMemo], which is not among the
    sources.  The hook runs its producer when mounted and again whenever a
    dependency changes; its state is pending, resolved or errored; each
    invocation carries the number of invocations started so far, and only
    the completion that carries the latest number is committed. *)
Inductive AsyncState : Type :=
| Pending
| Resolved (v : V)
| Errored (e : Exn).

(** Modelled from the spec: the state of one instance of the hook, with
    its invocation counter. *)
Record Hook := {
  started : nat;          (* the number of the invocation started last *)
  state : AsyncState;
}.

(** Modelled from the spec: what happens to an instance of the hook. *)
Inductive Event : Type :=
| DepsChanged              (* a dependency changed: the producer runs again *)
| Settled (n : nat).       (* the invocation number [n] completes *)

(** What the invocation number [n] of the producer completes with. *)
Variable result : nat -> Outcome V.

(** Modelled from the spec: the producer runs when the hook is mounted. *)
Definition mount : Hook := {| started := 1; state := Pending |}.

(** Modelled from the spec: a completion is a value or a failure. *)
Definition commit (o : Outcome V) : AsyncState :=
  match o with Returned v => Resolved v | Thrown e => Errored e end.

(** Modelled from the spec: a dependency change starts a new invocation,
    and a completion is committed only when it carries the number of the
    invocation started last. *)
Definition step (h : Hook) (ev : Event) : Hook :=
  match ev with
  | DepsChanged => {| started := S (started h); state := Pending |}
  | Settled n =>
      if Nat.eqb n (started h)
      then {| started := started h; state := commit (result n) |}
      else h
  end.

(** Modelled from the spec: the hook after a sequence of events. *)
Definition run (evs : list Event) : Hook := fold_left step evs mount.

(** Modelled from the spec: the resolved value, or nothing. *)
Definition getAsyncMemoData (h : Hook) : option V :=
  match state h with Resolved v => Some v | _ => None end.
End Hook.
End AsyncMemo.

(** * [src/frontend/src/components/forms/ImportPredictionDataset.tsx] *)

Module ImportPredictionDataset.
Record File := { name : string; size : Z }.

Record DataType := {
  data_headers : list string;
  data : list (list (string * JS));
  filename : string;
}.

Definition maxSizeMo : Z := 50.
Definition maxSize : Z := maxSizeMo * 1024 * 1024.

Section Effect.
(** [loadFile] of [core/utils], which is not among the sources: the
    parsed content of a file, or [None] when it cannot be parsed. *)
Variable loadFile : File -> option DataType.

(** Lines 54-72: the effect that runs when [files] changes.  It returns
    the [data] state of the component. *)
Definition onFiles (files : option (list File)) (data : option DataType)
    : M (option DataType) :=
  match files with
  | Some (file :: _) =>
      if Z.gtb (size file) maxSize then
        notify {| type := error;
                  message := "File is too big (only file less than "
                             ++ pretty maxSizeMo ++ " are allowed)" |};;
        mret data
      else
        emit (LoadFile (name file));;
        match loadFile file with
        | None =>
            notify {| type := error; message := "Error reading the file" |};;
            mret data
        | Some loaded => mret (Some loaded)
        end
  | _ => mret data
  end.
End Effect.
End ImportPredictionDataset.

(** [String.prototype.includes] *)
Definition includes (s part : string) : bool :=
  match String.index 0 part s with Some _ => true | None => false end.

(** * Definitions used by the statements *)

(** A middleware that only inspects the world. *)
Definition quiet (mw : Middleware) : Prop :=
  forall request w, exists r, onRequest mw request w = (Returned r, w).

(** A world in which a credential is persisted. *)
Definition signed_in (user token : string) : World :=
  {| localStorage :=
       {[ Auth.storage_key :=
            Auth.stringify {| Auth.username := user; Auth.token := token |} ]};
     trace := [] |}.

Definition sample_config : Config := {| api_url := "http://localhost:5000" |}.

(** The only notification that a mutating hook emits for an error. *)
Definition failure_notice : list NotificationData :=
  [{| type := error; message := "Error when renamed" |}].




(** The number of invocations that a sequence of events starts. *)
Definition starts (evs : list AsyncMemo.Event) : nat :=
  length (List.filter (fun ev => match ev with
                                 | AsyncMemo.DepsChanged => true
                                 | AsyncMemo.Settled _ => false
                                 end) evs).

(** The visible state of the hook is a completion of the invocation that
    was started last. *)
Definition committed_is_latest {V} (result : nat -> Outcome V)
    (h : AsyncMemo.Hook (V := V)) : Prop :=
  match AsyncMemo.state h with
  | AsyncMemo.Pending => True
  | AsyncMemo.Resolved v => result (AsyncMemo.started h) = Returned v
  | AsyncMemo.Errored e => result (AsyncMemo.started h) = Thrown e
  end.

(** * The other readers of [core/api.ts] *)

(** [JSON.stringify] of the platform, on an error body. *)
Class Json := { JSON_stringify : ErrorBody -> string }.

(** The payload of [/projects]: an object of projects by name, given by
    the members of its JSON text in their order. *)
Record Projects := { projects : list (string * JS) }.

(** ** The values of a parsed object (lodash [values])

    [values(object)] lists the values of the own properties of the object
    in the order in which the platform enumerates its keys: the array
    indices in ascending order, then the other names in the order of
    their creation. *)

Definition digit (c : ascii) : option N :=
  let n := N_of_ascii c in
  if (N.leb 48 n && N.leb n 57)%bool then Some (n - 48)%N else None.

Fixpoint decimal (s : string) (acc : N) : option N :=
  match s with
  | EmptyString => Some acc
  | String c rest =>
      match digit c with
      | Some d => decimal rest (10 * acc + d)%N
      | None => None
      end
  end.

(** An array index: the canonical decimal text (no sign, no leading zero)
    of an integer from 0 to 2^32 - 2. *)
Definition array_index (key : string) : option N :=
  match key with
  | EmptyString => None
  | String c rest =>
      if (Ascii.eqb c "0" && nonempty rest)%bool then None
      else match decimal key 0 with
           | Some n => if N.leb n 4294967294 then Some n else None
           | None => None
           end
  end.

(** [JSON.parse] on the members of an object: a name that comes again
    keeps its place and takes the later value. *)
Fixpoint set_member (key : string) (v : JS) (props : list (string * JS))
    : list (string * JS) :=
  match props with
  | [] => [(key, v)]
  | p :: rest =>
      if String.eqb (fst p) key then (key, v) :: rest
      else p :: set_member key v rest
  end.

Definition parsed (members : list (string * JS)) : list (string * JS) :=
  fold_left (fun props m => set_member (fst m) (snd m) props) members [].

(** The properties whose name is an array index, with their index, in
    ascending order. *)
Fixpoint insert_index (n : N) (p : string * JS) (l : list (N * (string * JS)))
    : list (N * (string * JS)) :=
  match l with
  | [] => [(n, p)]
  | q :: rest =>
      if N.leb n (fst q) then (n, p) :: q :: rest
      else q :: insert_index n p rest
  end.

Fixpoint indexed (props : list (string * JS)) : list (N * (string * JS)) :=
  match props with
  | [] => []
  | p :: rest =>
      match array_index (fst p) with
      | Some n => insert_index n p (indexed rest)
      | None => indexed rest
      end
  end.

(** The other properties, in the order of their creation. *)
Fixpoint named (props : list (string * JS)) : list (string * JS) :=
  match props with
  | [] => []
  | p :: rest =>
      match array_index (fst p) with
      | Some _ => named rest
      | None => p :: named rest
      end
  end.

Definition own_properties (props : list (string * JS)) : list (string * JS) :=
  (map snd (indexed props) ++ named props)%list.

Definition values (members : list (string * JS)) : list JS :=
  map snd (own_properties (parsed members)).


Module Lists.
Section Lists.
Context `{AuthProvider} `{Json} {D : Type}.

(** [src/frontend/src/core/api.ts], lines 127-150: the function given to
    [useAsyncMemo]; [api.GET] is called without options. *)
Definition useUserProjects1 (answer : FetchResult Projects) : M (list JS) :=
  res ← Api1.api_GET "/projects" options answer;
  match res_data res, res_error res with
  | Some d, None => mret (values (projects d))
  | _, err =>
      notify {| type := error;
                message := from_option JSON_stringify "undefined" err |};;
      mthrow (HttpError (status (res_response res)) "")
  end.

(** The later revision, lines 366-389. *)
Definition useUserProjects (answer : FetchResult Projects) : M (list JS) :=
  res ← Api2.api_GET "/projects" options answer;
  match res_data res, res_error res with
  | Some d, None => mret (values (projects d))
  | _, err =>
      notify {| type := error;
                message := from_option JSON_stringify "undefined" err |};;
      mthrow (HttpError (status (res_response res)) "")
  end.


End Lists.
End Lists.

(** * What the middleware reads *)

(** The credential that the middleware finds in the local storage (lines
    32-33 of [core/api.ts], the same in both revisions). *)
Definition authenticatedUser `{AuthProvider} (w : World) : option User :=
  match localStorage w !! "activeTigger.auth" with
  | Some text => if truthy text then JSON_parse text else None
  | None => None
  end.

(** The pairs of [authHeaders.headers] for that credential; none when
    there is no credential or no auth headers. *)
Definition authHeaders `{AuthProvider} (w : World) : list (string * string) :=
  match authenticatedUser w with
  | Some user => default [] (getAuthHeaders user)
  | None => []
  end.

(** The value of the first, and of the last, pair whose header name is
    [key] once normalised. *)
Fixpoint first_value (key : string) (pairs : list (string * string)) : option string :=
  match pairs with
  | [] => None
  | p :: rest =>
      if String.eqb (lower (fst p)) key then Some (snd p) else first_value key rest
  end.

Fixpoint last_value (key : string) (pairs : list (string * string)) : option string :=
  match pairs with
  | [] => None
  | p :: rest =>
      match last_value key rest with
      | Some v => Some v
      | None => if String.eqb (lower (fst p)) key then Some (snd p) else None
      end
  end.

(** * [src/frontend/src/components/SimpleModelManagement.tsx], the component *)

(** A regular expression that is an alternative of plain ASCII words,
    under the flag [i]: a text matches when it contains one of the words,
    letters compared without case. *)
Definition test_i (words : list string) (text : string) : bool :=
  existsb (fun word => includes (lower text) word) words.

Module SimpleModelManagement.
Record Feature := { label : string; value : string }.

(** Line 36. *)
Definition features (availableFeatures : list string) : list Feature :=
  map (fun e => {| value := e; label := e |}) availableFeatures.

(** Lines 86-95. *)
Definition filterFeatures (features : list Feature) : list Feature :=
  let filtered := List.filter (fun e => test_i ["sbert"; "fasttext"] (label e)) features in
  let predictFeature := List.find (fun e => test_i ["predict"] (label e)) features in
  match predictFeature with
  | Some f => filtered ++ [f]
  | None => filtered
  end.

Section Component.
Context `{AuthProvider} {D : Type}.

(** Lines 68-78.  [watchedFeatures] is what [watch('features')] gives:
    the selected features, or nothing while the field has no value. *)
Definition onSubmit (projectName currentScheme : option string)
    (watchedFeatures : option (list string)) (formData : SimpleModelModel)
    (answer : FetchResult D) : M unit :=
  console_log;;
  match watchedFeatures with
  | None => mthrow TypeError
  | Some selected =>
      if Nat.eqb (length selected) 0 then
        notify {| type := error; message := "Please select at least one feature" |}
      else
        _ ← Api2.useUpdateSimpleModel projectName currentScheme formData answer;
        mret tt
  end.
End Component.
End SimpleModelManagement.

(** * [ProjectionManagement.tsx] (first document of [src/unnamed/part_003]) *)

(** [pick] of lodash: the object made of the properties of [object] at
    [paths] that exist, in the order of [paths]; the empty object when
    [object] is null or undefined. *)
Fixpoint pick_fields (fields : list (string * JS)) (paths : list string)
    : list (string * JS) :=
  match paths with
  | [] => []
  | k :: rest =>
      match assoc k fields with
      | Some v => (k, v) :: pick_fields fields rest
      | None => pick_fields fields rest
      end
  end.

Definition pick (object : option JS) (paths : list string) : JS :=
  match object with
  | Some (JObj fields) => JObj (pick_fields fields paths)
  | _ => JObj []
  end.

Module ProjectionManagement.
(** [MarqueBoundingBox], over the type of its coordinates: numbers, or
    numbers and undefined for the coordinates read in a frame. *)
Record Range (A : Type) := { min : A; max : A }.
Arguments min {A} _.
Arguments max {A} _.
Record MarqueBoundingBox (A : Type) := { x : Range A; y : Range A }.
Arguments x {A} _.
Arguments y {A} _.

(** Lines 81-86. *)
Definition relevantParams (selectedMethod : string) : list string :=
  if String.eqb selectedMethod "tsne"
  then ["perplexity"; "n_components"; "learning_rate"; "init"]
  else if String.eqb selectedMethod "umap"
       then ["n_neighbors"; "min_dist"; "metric"; "n_components"]
       else [].

(** Lines 87-88: [{ ...formData, params }]. *)
Definition submitted (selectedMethod : string) (formData : ProjectionInStrictModel)
    : ProjectionInStrictModel :=
  {| pj_method := pj_method formData;
     pj_features := pj_features formData;
     pj_params := Some (pick (pj_params formData) (relevantParams selectedMethod)) |}.

(** Lines 165-174. *)
Definition frameAsBbox (frame : option (list Z))
    : option (MarqueBoundingBox (option Z)) :=
  match frame with
  | Some f => Some {| x := {| min := f !! 0%nat; max := f !! 1%nat |};
                      y := {| min := f !! 2%nat; max := f !! 3%nat |} |}
  | None => None
  end.

(** Lines 320-328: the selection configuration that [setFrameBbox]
    stores. *)
Definition setFrameBbox (bbox : option (MarqueBoundingBox Z))
    (selectionConfig : SelectionConfig) : SelectionConfig :=
  {| mode := mode selectionConfig; sample := sample selectionConfig;
     label := label selectionConfig;
     frame := match bbox with
              | Some b => Some [min (x b); max (x b); min (y b); max (y b)]
              | None => None
              end;
     frameSelection := frameSelection selectionConfig;
     filter := filter selectionConfig |}.

Section Component.
Context `{AuthProvider} {D : Type}.

(** Lines 78-101. *)
Definition onSubmit (projectName currentScheme : option string)
    (selectedMethod : string) (watchedFeatures : option (list string))
    (formData : ProjectionInStrictModel) (answer : FetchResult D) : M unit :=
  let data := submitted selectedMethod formData in
  console_log;;
  match watchedFeatures with
  | None => mthrow TypeError
  | Some selected =>
      if Nat.eqb (length selected) 0 then
        notify {| type := error; message := "Please select at least one feature" |}
      else
        _ ← Api2.useUpdateProjection projectName currentScheme data answer;
        emit (Called "setFormNewProjection");;
        emit (Called "reset")
  end.

(** Lines 153-163: the new value of [selectedElement].  The hook is
    [useGetElementById(projectName || null, currentScheme || null)]. *)
Definition setSelectedId (projectName currentScheme : option string)
    (id : option string) (answer : FetchResult D) : M (option D) :=
  match id with
  | Some i =>
      if truthy i then
        element ← Api2.useGetElementById projectName currentScheme i "train" answer;
        mret (match element with value d => Some d | _ => None end)
      else mret None
  | None => mret None
  end.
End Component.
End ProjectionManagement.

(** * [ProjectionManagement.tsx] (second document of [src/unnamed/part_003]) *)

Module ProjectionManagement2.
(** Lines 374-385. *)
Definition colormap : list string :=
  [ "#1f77b4"; "#ff7f0e"; "#2ca02c"; "#d62728"; "#9467bd";
    "#8c564b"; "#e377c2"; "#7f7f7f"; "#bcbd22"; "#17becf" ].

(** [[...new Set(labels)]]: the labels without repetition, in the order
    of their first occurrence. *)
Fixpoint unique_from (seen : list string) (labels : list string) : list string :=
  match labels with
  | [] => []
  | l :: rest =>
      if bool_decide (l ∈ seen) then unique_from seen rest
      else l :: unique_from (l :: seen) rest
  end.

Definition uniqueLabels (labels : list string) : list string := unique_from [] labels.

(** [reduce] with [acc[label] = colormap[index]] on a plain object; a
    colour beyond the end of [colormap] is undefined.  The name
    [__proto__] is the accessor of the prototype: given a text or
    undefined it changes nothing, and the object gets no property of that
    name. *)
Fixpoint assign (index : nat) (labels : list string)
    (acc : gmap string (option string)) : gmap string (option string) :=
  match labels with
  | [] => acc
  | l :: rest =>
      assign (S index) rest
        (if String.eqb l "__proto__" then acc else <[l := colormap !! index]> acc)
  end.

(** Lines 472-485: the new value of [labelColorMapping], or [None] when
    the effect leaves it (the line that the effect writes to the console
    is no part of that value). *)
Definition labeledColors (projectionData : option (list string))
    : option (gmap string (option string)) :=
  match projectionData with
  | Some labels => Some (assign 0 (uniqueLabels labels) ∅)
  | None => None
  end.

Section Component.
Context `{AuthProvider} {D : Type}.

(** Lines 445-463. *)
Definition onSubmit (projectName currentScheme : option string)
    (selectedMethod : string) (watchedFeatures : option (list string))
    (formData : ProjectionInStrictModel) (answer : FetchResult D) : M unit :=
  let data := ProjectionManagement.submitted selectedMethod formData in
  match watchedFeatures with
  | None => mthrow TypeError
  | Some selected =>
      if Nat.eqb (length selected) 0 then
        notify {| type := error; message := "Please select at least one feature" |}
      else
        _ ← Api2.useUpdateProjection projectName currentScheme data answer;
        mret tt
  end.
End Component.
End ProjectionManagement2.

(** * [SelectionManagement.tsx] ([src/unnamed/part_002]) *)

Module SelectionManagement.


(** Lines 50-57: the effect that forces a default label; it returns the
    selection configuration that it stores, or [None] when it stores
    nothing. *)
Definition forceDefaultLabel (selectionConfig : SelectionConfig)
    (availableLabels : list string) : option SelectionConfig :=
  if negb (truthy (label selectionConfig))
     && Nat.ltb 0 (length availableLabels)
  then Some {| mode := mode selectionConfig; sample := sample selectionConfig;
               label := head availableLabels;
               frame := frame selectionConfig;
               frameSelection := frameSelection selectionConfig;
               filter := filter selectionConfig |}
  else None.
End SelectionManagement.

(** * [ImportPredictionDataset.tsx], the submission *)

Module ImportSubmit.
(** The fields of the form ([TextDatasetModel]) that the handler reads. *)
Record FormData := { id : option string; text : option string }.

Section Handler.
(** [usePredictOnDataset] of [core/api] is not among the sources: the
    call is a computation given from outside; its argument is the form
    without its files, with the CSV text and the file name. *)
Variable predict : string -> string -> string -> FormData -> string -> string -> M unit.
(** [unparse] of papaparse. *)
Variable unparse : ImportPredictionDataset.DataType -> string.

(** Lines 74-89.  It returns the [data] state of the component. *)
Definition onSubmit (projectSlug scheme modelName : string) (formData : FormData)
    (data : option ImportPredictionDataset.DataType)
    : M (option ImportPredictionDataset.DataType) :=
  match data with
  | Some d =>
      if negb (truthy (id formData)) || negb (truthy (text formData)) then
        notify {| type := error; message := "Please fill all the fields" |};;
        mret data
      else
        predict projectSlug scheme modelName formData (unparse d)
                (ImportPredictionDataset.filename d);;
        emit (Called "reset");;
        mret None
  | None => mret data
  end.
End Handler.
End ImportSubmit.

(** * [init.sh] ([src/unnamed/part_000]), the configuration step *)

Module Init.

End Init.

(** * Properties *)

(** ** The monad *)

Lemma log_nil (w : World) : log w [] = w.
Proof. destruct w as [s t]. unfold log. simpl. by rewrite app_nil_r. Qed.

Lemma log_log (w : World) (a b : list Event) : log (log w a) b = log w (a ++ b).
Proof. unfold log. simpl. by rewrite app_assoc. Qed.


Lemma outcome_of {A} (m : M A) (w w' : World) (o : Outcome A) :
  m w = (o, w') -> outcome m w = o.
Proof. intros E. unfold outcome. by rewrite E. Qed.

Lemma bind_returned {A B} (m : M A) (f : A -> M B) (w w' : World) (a : A) :
  m w = (Returned a, w') -> (m ≫= f) w = f a w'.
Proof. intros E. unfold mbind, M_bind. by rewrite E. Qed.

Lemma bind_thrown {A B} (m : M A) (f : A -> M B) (w w' : World) (e : Exn) :
  m w = (Thrown e, w') -> (m ≫= f) w = (Thrown e, w').
Proof. intros E. unfold mbind, M_bind. by rewrite E. Qed.

(** ** The client *)

Lemma client_call_eq {D} (mw : Middleware) (m : Method) (path : string)
    (o : Options) (answer : FetchResult D) (w : World) :
  quiet mw ->
  client_call mw m path o answer w
  = (Returned answer, log w [Fetch (sent mw (new_request m path o) w)]).
Proof.
  intros Hq. unfold client_call, sent.
  destruct (Hq (new_request m path o) w) as [r Hr].
  rewrite (bind_returned _ _ _ _ _ Hr). rewrite Hr. reflexivity.
Qed.

Lemma authMiddleware1_quiet `{AuthProvider} : quiet Api1.authMiddleware.
Proof.
  intros request w. unfold Api1.authMiddleware. simpl.
  unfold mbind, M_bind, localStorage_getItem. simpl.
  repeat case_match; by eexists.
Qed.

Lemma authMiddleware2_quiet `{AuthProvider} : quiet Api2.authMiddleware.
Proof.
  intros request w. unfold Api2.authMiddleware. simpl.
  unfold mbind, M_bind, localStorage_getItem. simpl.
  repeat case_match; by eexists.
Qed.

Lemma api1_eq `{AuthProvider} {R} (m : Method) (path : string) (o : Options)
    (answer : FetchResult R) (w : World) :
  client_call Api1.authMiddleware m path o answer w
  = (Returned answer,
     log w [Fetch (sent Api1.authMiddleware (new_request m path o) w)]).
Proof. apply client_call_eq, authMiddleware1_quiet. Qed.

Lemma api2_eq `{AuthProvider} {R} (m : Method) (path : string) (o : Options)
    (answer : FetchResult R) (w : World) :
  client_call Api2.authMiddleware m path o answer w
  = (Returned answer,
     log w [Fetch (sent Api2.authMiddleware (new_request m path o) w)]).
Proof. apply client_call_eq, authMiddleware2_quiet. Qed.

Lemma throw_detail_eq {A} (e : ErrorBody) (w : World) :
  throw_detail (A := A) e w
  = (Thrown match detail_messages e with Returned t => Error t | Thrown x => x end, w).
Proof. unfold throw_detail. by destruct (detail_messages e). Qed.

(** Evaluation of a hook function: unfold the monad, replace each round
    trip by its equation, and merge the logs. *)
Ltac exec :=
  repeat first
    [ rewrite api1_eq | rewrite api2_eq | rewrite log_log | rewrite throw_detail_eq
    | progress (unfold mbind, M_bind, mret, M_ret, mthrow, M_throw, when, notify,
                saveAs, console_log, emit, void, Api1.api_POST, Api1.api_GET,
                Api2.api_POST, Api2.api_GET)
    | progress simpl ].

(** Case analysis on the values whose truth a guard tests. *)
Ltac guard_step :=
  match goal with
  | |- context [truthy ?x] => is_var x; destruct x
  | |- context [truthy_option ?x] => is_var x; destruct x
  | |- context [truthy_string ?x] => is_var x; destruct x
  | |- context [truthy_JS ?x] => is_var x; destruct x
  | |- context [nonempty ?x] => is_var x; destruct x
  | |- context [present ?x] => is_var x; destruct x
  | |- context [Z.eqb ?x 0] => is_var x; destruct (Z.eqb x 0)
  | |- context [negb ?x] => is_var x; destruct x
  | |- context [sm_features ?x] => is_var x; destruct x
  | |- context [pj_features ?x] => is_var x; destruct x
  | |- context [match ?x with Some _ => _ | None => _ end] => is_var x; destruct x
  end.

Ltac guards := repeat (first [guard_step | progress simpl]).

Lemma effects_none (w : World) : drop (length (trace w)) (trace w) = [].
Proof. apply drop_all. Qed.

Ltac observe :=
  unfold effects, outcome; guards; exec;
  rewrite <- ?app_assoc, ?drop_app_length, ?effects_none; simpl.

(** ** The auth middleware *)

Lemma sent_other_fields (mw : Middleware) (request : Request) (w : World) :
  (forall r, fst (onRequest mw request w) = Returned (Some r) ->
             r = with_headers request (req_headers r)) ->
  sent mw request w = with_headers request (req_headers (sent mw request w)).
Proof.
  intros Hr. unfold sent.
  destruct (fst (onRequest mw request w)) as [[r|]|] eqn:E; simpl.
  - by apply Hr.
  - by destruct request.
  - by destruct request.
Qed.

Lemma sent1_fields `{AuthProvider} (request : Request) (w : World) :
  sent Api1.authMiddleware request w
  = with_headers request (req_headers (sent Api1.authMiddleware request w)).
Proof.
  apply sent_other_fields. intros r. simpl.
  unfold mbind, M_bind, localStorage_getItem. simpl.
  repeat case_match; simpl; try done; intros [= <-]; by destruct request.
Qed.

Lemma sent2_fields `{AuthProvider} (request : Request) (w : World) :
  sent Api2.authMiddleware request w
  = with_headers request (req_headers (sent Api2.authMiddleware request w)).
Proof.
  apply sent_other_fields. intros r. simpl.
  unfold mbind, M_bind, localStorage_getItem. simpl.
  repeat case_match; simpl; try done; intros [= <-]; by destruct request.
Qed.

(** Setting only the unset headers keeps every header that is set. *)
Lemma set_unset_keeps (pairs : list (string * string)) (h : gmap string string)
    (name value : string) :
  Headers.get h name = Some value ->
  Headers.get
    (fold_left (fun h p => match Headers.get h (fst p) with
                           | None => Headers.set h (fst p) (snd p)
                           | Some _ => h
                           end) pairs h) name = Some value.
Proof.
  revert h. induction pairs as [|[k v] pairs IH]; intros h Hh; simpl; [done|].
  apply IH. destruct (Headers.get h k) eqn:E; [done|].
  unfold Headers.get, Headers.set in *.
  rewrite lookup_insert_ne; [done|]. intros Heq. rewrite Heq in E. congruence.
Qed.

(** The later revision of the middleware never overwrites a header of the
    caller: every header present on the request before the middleware runs
    has the same value on the request that is sent. *)
Theorem authMiddleware2_keeps_caller_headers `{AuthProvider} (request : Request)
    (w : World) (name value : string) :
  Headers.get (req_headers request) name = Some value ->
  Headers.get (req_headers (sent Api2.authMiddleware request w)) name = Some value.
Proof.
  intros Hh. unfold sent. simpl.
  unfold mbind, M_bind, localStorage_getItem. simpl.
  destruct (localStorage w !! "activeTigger.auth") as [text|]; simpl; [|done].
  destruct (truthy_string text); simpl; [|done].
  destruct (JSON_parse text) as [user|]; simpl; [|done].
  destruct (getAuthHeaders user) as [pairs|]; simpl; [|done].
  by apply set_unset_keeps.
Qed.

Lemma authMiddleware2_keeps_caller_headers_witness :
  Headers.get
    (req_headers
       (sent (Api2.authMiddleware (H := Auth.provider))
             (new_request POST "/users/disconnect"
                {| params_path := []; params_query := []; body := None;
                   headers := bearer "caller"; parseAs := "json" |})
             {| localStorage :=
                  {[ Auth.storage_key :=
                       Auth.stringify {| Auth.username := "alice";
                                         Auth.token := "stored" |} ]};
                trace := [] |}))
    "Authorization" = Some "Bearer caller".
Proof.
  apply (authMiddleware2_keeps_caller_headers (H := Auth.provider)).
  vm_compute. reflexivity.
Defined.

(** C1.  In [src/frontend/src/core/api.ts] the middleware sets every auth
    header without looking at the request: when [logout] or [me] is called
    with the token [caller] while the token [stored] is persisted, the
    request is built with the header [Authorization: Bearer caller] and
    leaves with [Authorization: Bearer stored]; the header of the caller
    is overwritten. *)
Theorem authMiddleware1_overwrites_caller_header :
  let request :=
    new_request POST "/users/disconnect"
      {| params_path := []; params_query := []; body := None;
         headers := bearer "caller"; parseAs := "json" |} in
  Headers.get (req_headers request) "Authorization" = Some "Bearer caller"
  /\ Headers.get
       (req_headers (sent (Api1.authMiddleware (H := Auth.provider)) request
                          (signed_in "alice" "stored")))
       "Authorization" = Some "Bearer stored"
  /\ map (fun r => Headers.get (req_headers r) "Authorization")
         (requests (effects (Api1.logout (H := Auth.provider) "caller"
                               (FetchData tt {| status := 200 |}))
                            (signed_in "alice" "stored")))
     = [Some "Bearer stored"]
  /\ map (fun r => Headers.get (req_headers r) "Authorization")
         (requests (effects (Api1.me (H := Auth.provider) "caller"
                               (FetchData tt {| status := 200 |}))
                            (signed_in "alice" "stored")))
     = [Some "Bearer stored"].
Proof. repeat split; vm_compute; reflexivity. Qed.

(** ** Login and logout *)

Lemma login1_eq `{AuthProvider} {D} (params : JS) (answer : FetchResult D) (w : World) :
  exists req,
    Api1.login params answer w
    = match answer with
      | FetchData d _ => (Returned d, log w [Fetch req])
      | FetchError e r =>
          (Thrown (HttpError (status r) (detail_to_string (detail e))),
           log w [Fetch req; Console])
      end.
Proof. unfold Api1.login. destruct answer; exec; by eexists. Qed.

Lemma login2_eq `{AuthProvider} {D} (params : JS) (answer : FetchResult D) (w : World) :
  exists req,
    Api2.login params answer w
    = match answer with
      | FetchData d _ => (Returned d, log w [Fetch req])
      | FetchError e r =>
          (Thrown (HttpError (status r) (detail_to_string (detail e))),
           log w [Fetch req; Console])
      end.
Proof. unfold Api2.login. destruct answer; exec; by eexists. Qed.

(** With a list of validation errors as detail, which is what the type of
    the API says, the message of the error that [login] raises is the text
    of an object: it carries none of the messages that the server
    reported. *)
Lemma login_list_detail_message :
  outcome (Api2.login (H := Auth.provider) (D := unit)
             (JObj [("username", JStr "alice")])
             (FetchError {| detail := DetailList [{| msg := "Field required" |}] |}
                         {| status := 422 |}))
          (signed_in "alice" "stored")
  = Thrown (HttpError 422 "[object Object]")
  /\ includes "[object Object]" "Field required" = false.
Proof. split; vm_compute; reflexivity. Qed.

(** C3, as amended.  [login] returns the payload of a response that
    carries data and no error; for a response that carries an error it
    raises an [HttpError] with the status of the response, whose message
    is the string conversion of the server's [detail]: the detail message
    itself when the server reports a text.  In both revisions and in
    every case the call leaves the local storage as it was, so it
    persists no credential. *)
Theorem login_returns_payload_or_raises `{AuthProvider} {D}
    (params : JS) (d : D) (e : ErrorBody) (text : string) (r : Response)
    (answer : FetchResult D) (w : World) :
  (outcome (Api1.login params (FetchData d r)) w = Returned d
   /\ outcome (Api2.login params (FetchData d r)) w = Returned d)
  /\ (outcome (Api1.login (D := D) params (FetchError e r)) w
      = Thrown (HttpError (status r) (detail_to_string (detail e)))
      /\ outcome (Api2.login (D := D) params (FetchError e r)) w
         = Thrown (HttpError (status r) (detail_to_string (detail e))))
  /\ (outcome (Api1.login (D := D) params
                 (FetchError {| detail := DetailText text |} r)) w
      = Thrown (HttpError (status r) text)
      /\ outcome (Api2.login (D := D) params
                 (FetchError {| detail := DetailText text |} r)) w
         = Thrown (HttpError (status r) text))
  /\ (localStorage (snd (Api1.login params answer w)) = localStorage w
      /\ localStorage (snd (Api2.login params answer w)) = localStorage w).
Proof.
  repeat split.
  - destruct (login1_eq params (FetchData d r) w) as [req E].
    by rewrite (outcome_of _ _ _ _ E).
  - destruct (login2_eq params (FetchData d r) w) as [req E].
    by rewrite (outcome_of _ _ _ _ E).
  - destruct (login1_eq (D := D) params (FetchError e r) w) as [req E].
    by rewrite (outcome_of _ _ _ _ E).
  - destruct (login2_eq (D := D) params (FetchError e r) w) as [req E].
    by rewrite (outcome_of _ _ _ _ E).
  - destruct (login1_eq (D := D) params
                (FetchError {| detail := DetailText text |} r) w)
      as [req E].
    by rewrite (outcome_of _ _ _ _ E).
  - destruct (login2_eq (D := D) params
                (FetchError {| detail := DetailText text |} r) w)
      as [req E].
    by rewrite (outcome_of _ _ _ _ E).
  - destruct (login1_eq params answer w) as [req E]. rewrite E.
    by destruct answer.
  - destruct (login2_eq params answer w) as [req E]. rewrite E.
    by destruct answer.
Qed.

Lemma logout1_eq `{AuthProvider} {D} (token : string) (answer : FetchResult D)
    (w : World) :
  exists req,
    Api1.logout token answer w
    = if Z.eqb (status (res_response answer)) 200
      then (Returned true, log w [Fetch req])
      else (Thrown (HttpError (status (res_response answer)) "could not logout"),
            log w [Fetch req; Console]).
Proof.
  unfold Api1.logout. exec.
  destruct (Z.eqb (status (res_response answer)) 200); exec; by eexists.
Qed.

Lemma logout2_eq `{AuthProvider} {D} (token : string) (answer : FetchResult D)
    (w : World) :
  exists req,
    Api2.logout token answer w
    = if Z.eqb (status (res_response answer)) 200
      then (Returned true, log w [Fetch req])
      else (Thrown (HttpError (status (res_response answer)) "could not logout"),
            log w [Fetch req; Console]).
Proof.
  unfold Api2.logout. exec.
  destruct (Z.eqb (status (res_response answer)) 200); exec; by eexists.
Qed.

(** C4.  [logout] returns (with [true]) if and only if the status of the
    response is exactly 200, and for every other status it raises an
    [HttpError] carrying that status; the function itself never touches
    the local storage.  In the logout of the auth context, which clears
    the local state after [logout] returns, the credential is cleared when
    the status is 200 and the local storage is unchanged otherwise. *)
Theorem logout_succeeds_iff_200 `{AuthProvider} {D}
    (token : string) (answer : FetchResult D) (w : World) :
  ((outcome (Api1.logout token answer) w = Returned true
    <-> status (res_response answer) = 200)
   /\ (outcome (Api2.logout token answer) w = Returned true
       <-> status (res_response answer) = 200))
  /\ (status (res_response answer) <> 200 ->
      outcome (Api1.logout token answer) w
      = Thrown (HttpError (status (res_response answer)) "could not logout")
      /\ outcome (Api2.logout token answer) w
         = Thrown (HttpError (status (res_response answer)) "could not logout"))
  /\ (localStorage (snd (Api1.logout token answer w)) = localStorage w
      /\ localStorage (snd (Api2.logout token answer w)) = localStorage w)
  /\ (status (res_response answer) = 200 ->
      outcome (Auth.logout_flow token answer) w = Returned tt
      /\ localStorage (snd (Auth.logout_flow token answer w))
         = delete Auth.storage_key (localStorage w))
  /\ (status (res_response answer) <> 200 ->
      outcome (Auth.logout_flow token answer) w
      = Thrown (HttpError (status (res_response answer)) "could not logout")
      /\ localStorage (snd (Auth.logout_flow token answer w)) = localStorage w).
Proof.
  destruct (logout1_eq token answer w) as [req1 E1].
  destruct (logout2_eq token answer w) as [req2 E2].
  unfold Auth.logout_flow, outcome, mbind, M_bind. rewrite E1, E2.
  destruct (Z.eqb_spec (status (res_response answer)) 200) as [Heq|Hne]; simpl.
  - repeat split; try done.
  - repeat split; try done; intros [=].
Qed.

Lemma logout_succeeds_iff_200_witness :
  status (res_response (FetchData tt {| status := 200 |})) = 200
  /\ outcome (Auth.logout_flow (H := Auth.provider)
                "stored" (FetchData tt {| status := 200 |}))
             (signed_in "alice" "stored") = Returned tt
  /\ status (res_response (FetchError (D := unit) {| detail := DetailAbsent |}
                                       {| status := 401 |})) <> 200
  /\ outcome (Api2.logout (H := Auth.provider) "stored"
                (FetchError (D := unit) {| detail := DetailAbsent |} {| status := 401 |}))
             (signed_in "alice" "stored")
     = Thrown (HttpError 401 "could not logout").
Proof.
  pose proof (logout_succeeds_iff_200 (H := Auth.provider) "stored"
                (FetchData tt {| status := 200 |}) (signed_in "alice" "stored"))
    as (_ & _ & _ & Hok & _).
  pose proof (logout_succeeds_iff_200 (H := Auth.provider) "stored"
                (FetchError (D := unit) {| detail := DetailAbsent |} {| status := 401 |})
                (signed_in "alice" "stored"))
    as (_ & Hko & _).
  split; [reflexivity|]. split; [apply Hok; reflexivity|].
  split; [simpl; lia|]. apply Hko. simpl. lia.
Defined.

(** ** Mutating hooks and error responses *)

Ltac hooks1 :=
  unfold Api1.useCreateProject, Api1.useDeleteProject, Api1.useDeleteScheme,
    Api1.useAddScheme, Api1.useAddFeature, Api1.useDeleteFeature,
    Api1.useAddAnnotation, Api1.useAddLabel, Api1.useDeleteLabel,
    Api1.useRenameLabel, Api1.useStatistics, Api1.useProject,
    Api1.useGetNextElementId, Api1.useGetElementById.

Ltac hooks2 :=
  unfold Api2.useCreateProject, Api2.useCreateTestSet, Api2.useDeleteProject,
    Api2.useDeleteScheme, Api2.useAddScheme, Api2.useAddFeature,
    Api2.useDeleteFeature, Api2.useAddAnnotation, Api2.useAddTableAnnotations,
    Api2.useAddLabel, Api2.useDeleteLabel, Api2.useRenameLabel,
    Api2.useUpdateSimpleModel, Api2.useDeleteUserAuthProject, Api2.useCreateUser,
    Api2.useDeleteUser, Api2.useAddUserAuthProject, Api2.useTrainBertModel,
    Api2.useRenameBertModel, Api2.useDeleteBertModel,
    Api2.useComputeModelPrediction, Api2.useUpdateProjection, Api2.useReconciliate,
    Api2.useStatistics, Api2.useProject, Api2.useGetNextElementId,
    Api2.useGetElementById, Api2.useUsersAuth, Api2.useModelInformations,
    Api2.useGetFeaturesFile, Api2.useGetAnnotationsFile, Api2.useGetPredictionsFile,
    Api2.useGetModelUrl, Api2.useTableElements, Api2.useGetProjectionData,
    Api2.useTableDisagreement.

Ltac conjuncts :=
  repeat match goal with
    | |- _ /\ _ => split
    | |- forall _, _ => intro
    end.

(** [useCreateProject] raises for an error response, and [renameLabel]
    returns [true], which is not a failure indicator. *)
Lemma createProject_raises_on_error :
  outcome (Hooks2.run (H := Auth.provider) (D := unit)
             (Hooks2.CreateProject (JObj [("project_name", JStr "demo")]))
             (FetchError {| detail := DetailList [{| msg := "Field required" |}] |}
                         {| status := 422 |}))
          (signed_in "alice" "stored")
  = Thrown (Error "Field required")
  /\ outcome (Hooks2.run (H := Auth.provider) (D := unit)
                (Hooks2.RenameLabel (Some "demo") (Some "topic") "old" "new")
                (FetchError {| detail := DetailAbsent |} {| status := 500 |}))
             (signed_in "alice" "stored")
     = Returned (JBool true)
  /\ truthy (JBool true) = true.
Proof. repeat split; vm_compute; reflexivity. Qed.

(** C5, as amended.  For a response that carries an error, the functions
    of [useCreateProject] and [useCreateTestSet] raise and notify nothing:
    they raise an [Error] whose message joins the messages of the
    validation errors when the detail is a list, and a [TypeError] when
    the detail is a non-empty text.  Every other mutating function
    returns, with the value that it returns for a response without error,
    and notifies at most once: [renameLabel], once it has sent its
    request, notifies the error once, and the others notify nothing. *)
Theorem mutations_on_error_response `{AuthProvider} {D}
    (e : ErrorBody) (r : Response) (w : World) :
  (forall m : Hooks2.Mutation,
      let failed := Hooks2.run (D := D) m (FetchError e r) in
      if Hooks2.raises m then
        (exists x, outcome failed w = Thrown x)
        /\ (forall l, detail e = DetailList l ->
              outcome failed w = Thrown (Error (join "; " (map msg l))))
        /\ (forall c text, detail e = DetailText (String c text) ->
              outcome failed w = Thrown TypeError)
        /\ notifications (effects failed w) = []
      else
        (forall (d : D) (r' : Response),
            outcome failed w = outcome (Hooks2.run m (FetchData d r')) w)
        /\ (exists v, outcome failed w = Returned v)
        /\ notifications (effects failed w)
           = match m with
             | Hooks2.RenameLabel projectSlug scheme _ _ =>
                 if truthy projectSlug && truthy scheme then failure_notice else []
             | _ => []
             end)
  /\ (forall m : Hooks1.Mutation,
      let failed := Hooks1.run (D := D) m (FetchError e r) in
      if Hooks1.raises m then
        (exists x, outcome failed w = Thrown x)
        /\ (forall l, detail e = DetailList l ->
              outcome failed w = Thrown (Error (join "; " (map msg l))))
        /\ (forall c text, detail e = DetailText (String c text) ->
              outcome failed w = Thrown TypeError)
        /\ notifications (effects failed w) = []
      else
        (forall (d : D) (r' : Response),
            outcome failed w = outcome (Hooks1.run m (FetchData d r')) w)
        /\ (exists v, outcome failed w = Returned v)
        /\ notifications (effects failed w)
           = match m with
             | Hooks1.RenameLabel _ _ _ _ => failure_notice
             | _ => []
             end).
Proof.
  split; intros m failed; subst failed.
  - destruct m; simpl; hooks2; unfold throw_detail, detail_messages; conjuncts;
      observe;
      try match goal with Hd : detail e = _ |- _ => rewrite Hd end;
      first [ reflexivity | by eexists
            | destruct (detail e) as [|[|c s]|l]; simpl; rewrite ?drop_app_length;
              first [reflexivity | by eexists] ].
  - destruct m; simpl; hooks1; unfold throw_detail, detail_messages; conjuncts;
      observe;
      try match goal with Hd : detail e = _ |- _ => rewrite Hd end;
      first [ reflexivity | by eexists
            | destruct (detail e) as [|[|c s]|l]; simpl; rewrite ?drop_app_length;
              first [reflexivity | by eexists] ].
Qed.

(** ** Missing parameters *)

(** C6.  A hook function called while a required parameter is null or
    undefined sends no request; the function of [useGetNextElementId]
    then emits exactly the error notification "Select a project/scheme to
    get elements", and every other hook function emits none. *)
Theorem missing_parameter_sends_nothing `{AuthProvider} `{Config} {D} (w : World) :
  (forall (m : Hooks2.Mutation) (answer : FetchResult D),
      missing (Hooks2.required m) = true ->
      requests (effects (Hooks2.run m answer) w) = []
      /\ notifications (effects (Hooks2.run m answer) w) = [])
  /\ (forall (q : Hooks2.Query) (answer : FetchResult (Hooks2.payload (D := D) q)),
      missing (Hooks2.query_required q) = true ->
      requests (effects (Hooks2.ask q answer) w) = []
      /\ notifications (effects (Hooks2.ask q answer) w) = Hooks2.skip_notice q)
  /\ (forall (m : Hooks1.Mutation) (answer : FetchResult D),
      missing (Hooks1.required m) = true ->
      requests (effects (Hooks1.run m answer) w) = []
      /\ notifications (effects (Hooks1.run m answer) w) = [])
  /\ (forall answer : FetchResult D,
      requests (effects (Api1.useProject None answer) w) = []
      /\ notifications (effects (Api1.useProject None answer) w) = []).
Proof.
  split; [|split; [|split]].
  - intros m answer Hm.
    destruct m; simpl in *; hooks2; try discriminate;
      unfold effects; guards; try discriminate; split; observe; reflexivity.
  - intros q answer Hq.
    destruct q; simpl in *; hooks2; try discriminate;
      unfold effects; guards; try discriminate; split; observe; reflexivity.
  - intros m answer Hm.
    destruct m; simpl in *; hooks1; try discriminate;
      unfold effects; guards; try discriminate; split; observe; reflexivity.
  - intros answer. hooks1. split; observe; reflexivity.
Qed.

Lemma missing_parameter_sends_nothing_witness :
  missing (Hooks2.query_required
             (Hooks2.GetNextElementId None (Some "topic")
                {| mode := "deterministic"; sample := "untagged"; label := None;
                   frame := None; frameSelection := None; filter := None |}
                [] "train")) = true
  /\ requests
       (effects
          (Hooks2.ask (H := Auth.provider) (H0 := sample_config) (D := unit)
             (Hooks2.GetNextElementId None (Some "topic")
                {| mode := "deterministic"; sample := "untagged"; label := None;
                   frame := None; frameSelection := None; filter := None |}
                [] "train")
             (FetchData {| element_id := "e1" |} {| status := 200 |}))
          (signed_in "alice" "stored")) = []
  /\ notifications
       (effects
          (Hooks2.run (H := Auth.provider) (D := unit)
             (Hooks2.AddLabel None (Some "topic") "new")
             (FetchData tt {| status := 200 |}))
          (signed_in "alice" "stored")) = [].
Proof.
  pose proof (missing_parameter_sends_nothing (H := Auth.provider)
                (H0 := sample_config) (D := unit) (signed_in "alice" "stored"))
    as (Hm & Hq & _).
  split; [reflexivity|]. split.
  - apply Hq. reflexivity.
  - apply (Hm (Hooks2.AddLabel None (Some "topic") "new")). reflexivity.
Defined.

(** ** Exports *)

(** C7.  With a project selected, an export whose response is a blob
    saves exactly one file, named after the kind of artifact, a dot and
    the requested format; an export whose response carries an error saves
    nothing. *)
Theorem export_saves_kind_dot_format `{AuthProvider}
    (projectSlug : option string) (scheme model format blob : string)
    (features : list string) (e : ErrorBody) (r : Response) (w : World) :
  truthy projectSlug = true ->
  (saved (effects (Api2.useGetAnnotationsFile projectSlug scheme format
                     (FetchData blob r)) w)
   = [(Some blob, "annotations." ++ format)]
   /\ saved (effects (Api2.useGetAnnotationsFile projectSlug scheme format
                        (FetchError e r)) w) = [])
  /\ (saved (effects (Api2.useGetPredictionsFile projectSlug model format
                        (FetchData blob r)) w)
      = [(Some blob, "predictions." ++ format)]
      /\ saved (effects (Api2.useGetPredictionsFile projectSlug model format
                           (FetchError e r)) w) = [])
  /\ (saved (effects (Api2.useGetFeaturesFile projectSlug features format
                        (FetchData blob r)) w)
      = [(Some blob, "features." ++ format)]
      /\ saved (effects (Api2.useGetFeaturesFile projectSlug features format
                           (FetchError e r)) w) = []).
Proof.
  intros Hp. destruct projectSlug as [[|c slug]|]; try discriminate.
  hooks2. repeat split; observe; reflexivity.
Qed.

Lemma export_saves_kind_dot_format_witness :
  saved (effects (Api2.useGetAnnotationsFile (H := Auth.provider) (Some "demo")
                    "topic" "csv" (FetchData "id,label" {| status := 200 |}))
                 (signed_in "alice" "stored"))
  = [(Some "id,label", "annotations.csv")]
  /\ saved (effects (Api2.useGetPredictionsFile (H := Auth.provider) (Some "demo")
                       "bert-1" "parquet" (FetchData "PAR1" {| status := 200 |}))
                    (signed_in "alice" "stored"))
     = [(Some "PAR1", "predictions.parquet")].
Proof.
  pose proof (export_saves_kind_dot_format (H := Auth.provider)
                (Some "demo") "topic" "bert-1" "csv" "id,label" []
                {| detail := DetailAbsent |} {| status := 200 |}
                (signed_in "alice" "stored") eq_refl) as ((Ha & _) & _).
  pose proof (export_saves_kind_dot_format (H := Auth.provider)
                (Some "demo") "topic" "bert-1" "parquet" "PAR1" []
                {| detail := DetailAbsent |} {| status := 200 |}
                (signed_in "alice" "stored") eq_refl) as (_ & (Hp & _) & _).
  split; [exact Ha | exact Hp].
Defined.

(** ** Notifications of successful mutations *)

(** The training of a BERT model and the computation of a prediction are
    announced by a warning whose message contains neither "under
    computation" nor "under training". *)
Lemma trainBertModel_message_wording :
  notifications
    (effects (Api2.useTrainBertModel (H := Auth.provider) (D := unit)
                (Some "demo") (Some "topic")
                {| bm_name := Some "bert-1"; bm_base := "camembert-base";
                   bm_parameters := JObj [] |}
                (FetchData tt {| status := 200 |}))
             (signed_in "alice" "stored"))
  = [{| type := warning; message := "Starting bertmodel training" |}]
  /\ includes "Starting bertmodel training" "under computation" = false
  /\ includes "Starting bertmodel training" "under training" = false.
Proof. repeat split; vm_compute; reflexivity. Qed.

(** C8, as amended.  When the request is sent and the response carries no
    error, a hook that starts a long-running job emits exactly one
    notification, of type warning, whose message announces the job
    ("Features are under computation...", "Model under training",
    "Starting bertmodel training", "Projection under training" or
    "Computing prediction. It can take some time."); a hook whose mutation
    completes immediately emits exactly one notification, of type
    success. *)
Theorem success_notification_by_kind `{AuthProvider} {D}
    (d : D) (r : Response) (w : World) :
  (forall m : Hooks2.Mutation,
      requests (effects (Hooks2.run m (FetchData d r)) w) <> [] ->
      match Hooks2.kind m with
      | LongJob =>
          notifications (effects (Hooks2.run m (FetchData d r)) w)
          = [{| type := warning; message := Hooks2.announcement m |}]
      | Immediate =>
          exists text,
            notifications (effects (Hooks2.run m (FetchData d r)) w)
            = [{| type := success; message := text |}]
      | Other => True
      end)
  /\ (forall m : Hooks1.Mutation,
      requests (effects (Hooks1.run m (FetchData d r)) w) <> [] ->
      match Hooks1.kind m with
      | LongJob =>
          notifications (effects (Hooks1.run m (FetchData d r)) w)
          = [{| type := warning; message := Hooks1.announcement m |}]
      | Immediate =>
          exists text,
            notifications (effects (Hooks1.run m (FetchData d r)) w)
            = [{| type := success; message := text |}]
      | Other => True
      end).
Proof.
  split; intros m.
  - destruct m; simpl; try done; hooks2; unfold effects; guards; observe;
      intros Hsent; try done; try reflexivity; by eexists.
  - destruct m; simpl; try done; hooks1; unfold effects; guards; observe;
      intros Hsent; try done; try reflexivity; by eexists.
Qed.

Lemma success_notification_by_kind_witness :
  requests (effects (Hooks2.run (H := Auth.provider) (D := unit)
                       (Hooks2.AddLabel (Some "demo") (Some "topic") "new")
                       (FetchData tt {| status := 200 |}))
                    (signed_in "alice" "stored")) <> []
  /\ exists text,
      notifications
        (effects (Hooks2.run (H := Auth.provider) (D := unit)
                    (Hooks2.AddLabel (Some "demo") (Some "topic") "new")
                    (FetchData tt {| status := 200 |}))
                 (signed_in "alice" "stored"))
      = [{| type := success; message := text |}].
Proof.
  assert (Hs : requests (effects (Hooks2.run (H := Auth.provider) (D := unit)
                       (Hooks2.AddLabel (Some "demo") (Some "topic") "new")
                       (FetchData tt {| status := 200 |}))
                    (signed_in "alice" "stored")) <> []).
  { vm_compute. discriminate. }
  split; [exact Hs|].
  exact (proj1 (success_notification_by_kind (H := Auth.provider)
                  tt {| status := 200 |}
                  (signed_in "alice" "stored"))
               (Hooks2.AddLabel (Some "demo") (Some "topic") "new") Hs).
Defined.

(** ** The table of elements *)





(** ** The Async-Resource Hook *)

Section AsyncMemoProperties.
Context {V : Type} (result : nat -> Outcome V).

Lemma step_keeps_latest (h : AsyncMemo.Hook) (ev : AsyncMemo.Event) :
  committed_is_latest result h ->
  committed_is_latest result (AsyncMemo.step result h ev).
Proof.
  intros Hh. destruct ev as [|n]; simpl; [exact I|].
  destruct (Nat.eqb_spec n (AsyncMemo.started h)) as [->|Hne]; [|exact Hh].
  unfold committed_is_latest. simpl.
  by destruct (result (AsyncMemo.started h)).
Qed.

Lemma steps_keep_latest (evs : list AsyncMemo.Event) (h : AsyncMemo.Hook) :
  committed_is_latest result h ->
  committed_is_latest result (fold_left (AsyncMemo.step result) evs h).
Proof.
  revert h. induction evs as [|ev evs IH]; intros h Hh; simpl; [exact Hh|].
  apply IH, step_keeps_latest, Hh.
Qed.

Lemma steps_started (evs : list AsyncMemo.Event) (h : AsyncMemo.Hook) :
  AsyncMemo.started (fold_left (AsyncMemo.step result) evs h)
  = (AsyncMemo.started h + starts evs)%nat.
Proof.
  revert h. induction evs as [|ev evs IH]; intros h; simpl.
  - unfold starts. simpl. lia.
  - rewrite IH. unfold starts. destruct ev as [|n]; simpl; [lia|].
    destruct (Nat.eqb n (AsyncMemo.started h)); simpl; lia.
Qed.

Lemma stale_completion_discarded (h : AsyncMemo.Hook) (n : nat) :
  n <> AsyncMemo.started h -> AsyncMemo.step result h (AsyncMemo.Settled n) = h.
Proof.
  intros Hne. simpl.
  by destruct (Nat.eqb_spec n (AsyncMemo.started h)).
Qed.

(** C2.  After every sequence of dependency changes and completions, in
    every order, the invocation started last is the one that the last
    dependency change started; the value (or the error) that the hook
    shows is the result of that invocation; and the completion of any
    other invocation leaves the state of the hook as it is. *)
Theorem async_memo_shows_latest_started (evs : list AsyncMemo.Event) :
  let h := AsyncMemo.run result evs in
  AsyncMemo.started h = S (starts evs)
  /\ committed_is_latest result h
  /\ (forall v, AsyncMemo.getAsyncMemoData h = Some v ->
                result (AsyncMemo.started h) = Returned v)
  /\ (forall n, n <> AsyncMemo.started h ->
                AsyncMemo.run result (evs ++ [AsyncMemo.Settled n]) = h).
Proof.
  simpl. unfold AsyncMemo.run.
  assert (Hl : committed_is_latest result
                 (fold_left (AsyncMemo.step result) evs AsyncMemo.mount)).
  { apply steps_keep_latest. exact I. }
  split; [|split; [|split]].
  - rewrite steps_started. reflexivity.
  - exact Hl.
  - intros v. unfold AsyncMemo.getAsyncMemoData, committed_is_latest in *.
    destruct (AsyncMemo.state _); try discriminate.
    by intros [= <-].
  - intros n Hne. rewrite fold_left_app. simpl.
    destruct (Nat.eqb_spec n (AsyncMemo.started
                (fold_left (AsyncMemo.step result) evs AsyncMemo.mount)));
      [contradiction|reflexivity].
Qed.
End AsyncMemoProperties.

(** Two invocations; the first completes after the second has started and
    again after the second has completed: the hook shows the result of the
    second. *)
Lemma async_memo_shows_latest_started_witness :
  let result := fun n : nat => Returned (Z.of_nat n * 10) in
  let evs := [AsyncMemo.DepsChanged; AsyncMemo.Settled 1%nat; AsyncMemo.Settled 2%nat] in
  AsyncMemo.getAsyncMemoData (AsyncMemo.run result evs) = Some 20
  /\ result (AsyncMemo.started (AsyncMemo.run result evs)) = Returned 20
  /\ AsyncMemo.run result (evs ++ [AsyncMemo.Settled 1%nat]) = AsyncMemo.run result evs.
Proof.
  intros result evs.
  pose proof (async_memo_shows_latest_started result evs) as (_ & _ & Hv & Hs).
  split; [reflexivity|]. split.
  - apply Hv. reflexivity.
  - apply Hs. simpl. lia.
Defined.

(** ** The import form for prediction datasets *)

(** C10.  A selected file whose size exceeds 50 * 1024 * 1024 bytes gets
    exactly one error notification, is not loaded, and leaves the data
    state as it is; a file of at most that size is loaded, and when it
    cannot be parsed there is exactly one error notification and the data
    state is left as it is; when it can, its content becomes the data. *)
Theorem import_checks_size_then_loads
    (loadFile : ImportPredictionDataset.File -> option ImportPredictionDataset.DataType)
    (file : ImportPredictionDataset.File) (others : list ImportPredictionDataset.File)
    (data : option ImportPredictionDataset.DataType) (w : World) :
  let run := ImportPredictionDataset.onFiles loadFile (Some (file :: others)) data in
  ImportPredictionDataset.maxSize = 50 * 1024 * 1024
  /\ (ImportPredictionDataset.size file > ImportPredictionDataset.maxSize ->
      effects run w
      = [Notify {| type := error;
                   message := "File is too big (only file less than 50 are allowed)" |}]
      /\ outcome run w = Returned data)
  /\ (ImportPredictionDataset.size file <= ImportPredictionDataset.maxSize ->
      loadFile file = None ->
      effects run w
      = [LoadFile (ImportPredictionDataset.name file);
         Notify {| type := error; message := "Error reading the file" |}]
      /\ outcome run w = Returned data)
  /\ (ImportPredictionDataset.size file <= ImportPredictionDataset.maxSize ->
      forall loaded, loadFile file = Some loaded ->
      effects run w = [LoadFile (ImportPredictionDataset.name file)]
      /\ outcome run w = Returned (Some loaded)).
Proof.
  simpl. unfold ImportPredictionDataset.onFiles.
  split; [reflexivity|].
  destruct (Z.gtb_spec (ImportPredictionDataset.size file)
                       ImportPredictionDataset.maxSize) as [Hbig|Hok].
  - split; [|split]; intros; try lia. split; observe; reflexivity.
  - split; [|split]; intros; try lia.
    + rewrite H0. split; observe; reflexivity.
    + rewrite H0. split; observe; reflexivity.
Qed.

Lemma import_checks_size_then_loads_witness :
  let big := {| ImportPredictionDataset.name := "big.csv";
                ImportPredictionDataset.size := 52428801 |} in
  let small := {| ImportPredictionDataset.name := "bad.csv";
                  ImportPredictionDataset.size := 52428800 |} in
  effects (ImportPredictionDataset.onFiles (fun _ => None) (Some [big]) None)
          (signed_in "alice" "stored")
  = [Notify {| type := error;
               message := "File is too big (only file less than 50 are allowed)" |}]
  /\ effects (ImportPredictionDataset.onFiles (fun _ => None) (Some [small]) None)
             (signed_in "alice" "stored")
     = [LoadFile "bad.csv";
        Notify {| type := error; message := "Error reading the file" |}].
Proof.
  intros big small.
  pose proof (import_checks_size_then_loads (fun _ => None) big [] None
                (signed_in "alice" "stored")) as (_ & Hbig & _).
  pose proof (import_checks_size_then_loads (fun _ => None) small [] None
                (signed_in "alice" "stored")) as (_ & _ & Hsmall & _).
  split.
  - apply Hbig. reflexivity.
  - apply Hsmall; [vm_compute; discriminate | reflexivity].
Defined.

(** * Further properties of [core/api.ts] *)

(** ** What the middleware does to a request *)

Lemma sent1_headers `{AuthProvider} (request : Request) (w : World) :
  req_headers (sent Api1.authMiddleware request w)
  = fold_left (fun h p => Headers.set h (fst p) (snd p)) (authHeaders w)
              (req_headers request).
Proof.
  unfold sent, authHeaders, authenticatedUser. simpl.
  unfold mbind, M_bind, localStorage_getItem. simpl.
  destruct (localStorage w !! "activeTigger.auth") as [text|]; simpl; [|done].
  destruct (truthy_string text); simpl; [|done].
  destruct (JSON_parse text) as [user|]; simpl; [|done].
  destruct (getAuthHeaders user) as [pairs|]; simpl; done.
Qed.

Lemma sent2_headers `{AuthProvider} (request : Request) (w : World) :
  req_headers (sent Api2.authMiddleware request w)
  = fold_left (fun h p => match Headers.get h (fst p) with
                          | None => Headers.set h (fst p) (snd p)
                          | Some _ => h
                          end) (authHeaders w) (req_headers request).
Proof.
  unfold sent, authHeaders, authenticatedUser. simpl.
  unfold mbind, M_bind, localStorage_getItem. simpl.
  destruct (localStorage w !! "activeTigger.auth") as [text|]; simpl; [|done].
  destruct (truthy_string text); simpl; [|done].
  destruct (JSON_parse text) as [user|]; simpl; [|done].
  destruct (getAuthHeaders user) as [pairs|]; simpl; done.
Qed.

Lemma set_all_lookup (pairs : list (string * string)) (h : gmap string string)
    (key : string) :
  fold_left (fun h p => Headers.set h (fst p) (snd p)) pairs h !! key
  = match last_value key pairs with
    | Some v => Some v
    | None => h !! key
    end.
Proof.
  revert h. induction pairs as [|[k v] pairs IH]; intros h; simpl; [done|].
  rewrite IH. destruct (last_value key pairs) as [v'|]; [done|].
  unfold Headers.set. simpl.
  destruct (String.eqb_spec (lower k) key) as [->|Hne].
  - by rewrite lookup_insert_eq.
  - by rewrite lookup_insert_ne.
Qed.

Lemma set_unset_lookup (pairs : list (string * string)) (h : gmap string string)
    (key : string) :
  fold_left (fun h p => match Headers.get h (fst p) with
                        | None => Headers.set h (fst p) (snd p)
                        | Some _ => h
                        end) pairs h !! key
  = match h !! key with
    | Some v => Some v
    | None => first_value key pairs
    end.
Proof.
  revert h. induction pairs as [|[k v] pairs IH]; intros h; simpl.
  - by destruct (h !! key).
  - rewrite IH. unfold Headers.get, Headers.set. simpl.
    destruct (String.eqb_spec (lower k) key) as [->|Hne].
    + destruct (h !! key) as [v'|] eqn:E; [by rewrite E|].
      by rewrite lookup_insert_eq.
    + destruct (h !! lower k) as [v'|] eqn:E; [done|].
      by rewrite lookup_insert_ne.
Qed.

(** X1.  In both revisions the middleware changes nothing of a request
    but its headers: the method, the path, the path and query parameters,
    the body and the way to parse the answer leave as they were built. *)
Theorem middleware_changes_only_headers `{AuthProvider} (request : Request) (w : World) :
  let r1 := sent Api1.authMiddleware request w in
  let r2 := sent Api2.authMiddleware request w in
  (req_method r1 = req_method request /\ req_path r1 = req_path request
   /\ req_path_params r1 = req_path_params request
   /\ req_query r1 = req_query request /\ req_body r1 = req_body request
   /\ req_parseAs r1 = req_parseAs request)
  /\ (req_method r2 = req_method request /\ req_path r2 = req_path request
      /\ req_path_params r2 = req_path_params request
      /\ req_query r2 = req_query request /\ req_body r2 = req_body request
      /\ req_parseAs r2 = req_parseAs request).
Proof.
  simpl. rewrite (sent1_fields request w), (sent2_fields request w).
  repeat split.
Qed.

(** X2.  In [src/frontend/src/core/api.ts] every auth header replaces the
    header of the same name: a header of the request that leaves has the
    value of the last auth header of that name when there is one, and the
    value that the caller gave otherwise. *)
Theorem middleware1_header_values `{AuthProvider} (request : Request) (w : World)
    (key : string) :
  req_headers (sent Api1.authMiddleware request w) !! key
  = match last_value key (authHeaders w) with
    | Some v => Some v
    | None => req_headers request !! key
    end.
Proof. rewrite sent1_headers. apply set_all_lookup. Qed.

(** X3.  In the later revision a header of the request that leaves has
    the value that the caller gave when the caller gave one, and the
    value of the first auth header of that name otherwise: an auth header
    is added exactly when the request does not have it. *)
Theorem middleware2_header_values `{AuthProvider} (request : Request) (w : World)
    (key : string) :
  req_headers (sent Api2.authMiddleware request w) !! key
  = match req_headers request !! key with
    | Some v => Some v
    | None => first_value key (authHeaders w)
    end.
Proof. rewrite sent2_headers. apply set_unset_lookup. Qed.

(** X4.  Without a credential in the local storage (no entry, an empty
    text or a falsy value), and also when the provider gives no auth
    header for the credential, both revisions let the request leave as
    it was built. *)
Theorem no_auth_headers_request_unchanged `{AuthProvider} (request : Request)
    (w : World) :
  authHeaders w = [] ->
  sent Api1.authMiddleware request w = request
  /\ sent Api2.authMiddleware request w = request.
Proof.
  intros Hw.
  rewrite (sent1_fields request w), (sent2_fields request w).
  rewrite sent1_headers, sent2_headers, Hw. simpl. by destruct request.
Qed.

Lemma no_auth_headers_request_unchanged_witness :
  let request := new_request POST "/token"
                   {| params_path := []; params_query := []; body := None;
                      headers := [("Content-Type", "application/x-www-form-urlencoded")];
                      parseAs := "json" |} in
  let w := {| localStorage := ∅; trace := [] |} in
  sent (Api1.authMiddleware (H := Auth.provider)) request w = request
  /\ sent (Api2.authMiddleware (H := Auth.provider)) request w = request.
Proof.
  intros request w.
  apply (no_auth_headers_request_unchanged (H := Auth.provider)). reflexivity.
Defined.

Lemma first_last_value_nodup (key : string) (pairs : list (string * string)) :
  NoDup (map (fun p => lower (fst p)) pairs) ->
  last_value key pairs = first_value key pairs.
Proof.
  induction pairs as [|[k v] pairs IH]; simpl; [done|].
  intros Hnd. apply NoDup_cons in Hnd as [Hk Hnd]. rewrite (IH Hnd).
  destruct (String.eqb_spec (lower k) key) as [<-|Hne].
  - assert (Hnone : first_value (lower k) pairs = None).
    { clear -Hk. induction pairs as [|[k' v'] pairs IH]; simpl; [done|].
      simpl in Hk. apply not_elem_of_cons in Hk as [Hne Hk].
      destruct (String.eqb_spec (lower k') (lower k)); [congruence|].
      by apply IH. }
    by rewrite Hnone.
  - by destruct (first_value key pairs).
Qed.

Lemma first_value_some (key : string) (pairs : list (string * string)) (v : string) :
  first_value key pairs = Some v -> exists p, p ∈ pairs /\ lower (fst p) = key.
Proof.
  induction pairs as [|[k v'] pairs IH]; simpl; [done|].
  destruct (String.eqb_spec (lower k) key) as [Heq|Hne].
  - intros _. exists (k, v'). split; [left|done].
  - intros Hv. destruct (IH Hv) as (p & Hp & Hk). exists p. split; [by right|done].
Qed.

(** X5.  The two revisions send the same request whenever the caller has
    set none of the auth headers and the auth headers have distinct
    names. *)
Theorem revisions_agree_on_fresh_headers `{AuthProvider} (request : Request)
    (w : World) :
  (forall p, p ∈ authHeaders w -> Headers.get (req_headers request) (fst p) = None) ->
  NoDup (map (fun p => lower (fst p)) (authHeaders w)) ->
  sent Api1.authMiddleware request w = sent Api2.authMiddleware request w.
Proof.
  intros Hfresh Hnd.
  rewrite (sent1_fields request w), (sent2_fields request w). f_equal.
  apply map_eq. intros key.
  rewrite sent1_headers, sent2_headers, set_all_lookup, set_unset_lookup.
  rewrite (first_last_value_nodup key _ Hnd).
  destruct (first_value key (authHeaders w)) as [v|] eqn:E.
  - destruct (first_value_some _ _ _ E) as (p & Hp & Hk).
    specialize (Hfresh p Hp). unfold Headers.get in Hfresh.
    rewrite Hk in Hfresh. by rewrite Hfresh.
  - by destruct (req_headers request !! key).
Qed.

Lemma revisions_agree_on_fresh_headers_witness :
  let request := new_request POST "/projects/new"
                   {| params_path := []; params_query := []; body := None;
                      headers := [("Content-Type", "application/json")];
                      parseAs := "json" |} in
  sent (Api1.authMiddleware (H := Auth.provider)) request (signed_in "alice" "stored")
  = sent (Api2.authMiddleware (H := Auth.provider)) request (signed_in "alice" "stored").
Proof.
  intros request.
  apply (revisions_agree_on_fresh_headers (H := Auth.provider)).
  - intros p Hp. vm_compute in Hp.
    apply list_elem_of_singleton in Hp. subst p. vm_compute. reflexivity.
  - vm_compute. apply NoDup_singleton.
Defined.

(** ** [me] and [logout] *)

Lemma bearer_header_set (token : string) :
  Headers.get (Headers.of_pairs (bearer token)) "Authorization"
  = Some ("Bearer " ++ token).
Proof.
  unfold Headers.get, Headers.of_pairs, bearer, Headers.set. simpl.
  apply lookup_insert_eq.
Qed.

(** X6.  In the later revision [me] sends one GET to [/users/me] and
    [logout] one POST to [/users/disconnect], each with the bearer token
    that it was given, whatever the local storage holds; [me] returns the
    payload of a response with data and raises an [HttpError] with the
    status of the response and an empty message otherwise. *)
Theorem me_and_logout_send_given_token `{AuthProvider} {D} (token : string)
    (answer : FetchResult D) (w : World) :
  (exists r,
      requests (effects (Api2.me token answer) w) = [r]
      /\ req_method r = GET /\ req_path r = "/users/me"
      /\ Headers.get (req_headers r) "Authorization" = Some ("Bearer " ++ token))
  /\ outcome (Api2.me token answer) w
     = match answer with
       | FetchData d _ => Returned d
       | FetchError _ r => Thrown (HttpError (status r) "")
       end
  /\ (exists r,
      requests (effects (Api2.logout token answer) w) = [r]
      /\ req_method r = POST /\ req_path r = "/users/disconnect"
      /\ Headers.get (req_headers r) "Authorization" = Some ("Bearer " ++ token)).
Proof.
  split; [|split].
  - eexists. split; [|split; [|split]].
    + unfold Api2.me. observe. destruct answer; observe; reflexivity.
    + by rewrite sent2_fields.
    + by rewrite sent2_fields.
    + unfold Headers.get. rewrite sent2_headers, set_unset_lookup.
      pose proof (bearer_header_set token) as Hb. unfold Headers.get in Hb.
      simpl in *. by rewrite Hb.
  - unfold Api2.me. destruct answer; observe; reflexivity.
  - destruct (logout2_eq token answer w) as [req E].
    eexists. split; [|split; [|split]].
    + unfold Api2.logout. observe.
      destruct (Z.eqb (status (res_response answer)) 200); observe; reflexivity.
    + by rewrite sent2_fields.
    + by rewrite sent2_fields.
    + unfold Headers.get. rewrite sent2_headers, set_unset_lookup.
      pose proof (bearer_header_set token) as Hb. unfold Headers.get in Hb.
      simpl in *. by rewrite Hb.
Qed.

(** ** Requests of the hook functions *)

(** X7.  Every mutating hook function, in both revisions, sends at most
    one request, by POST, and saves no file; this holds for a response
    with data and for a response with an error. *)
Theorem mutations_send_at_most_one_post `{AuthProvider} {D}
    (answer : FetchResult D) (w : World) :
  (forall m : Hooks2.Mutation,
      (requests (effects (Hooks2.run m answer) w) = []
       \/ exists r, requests (effects (Hooks2.run m answer) w) = [r]
                    /\ req_method r = POST)
      /\ saved (effects (Hooks2.run m answer) w) = [])
  /\ (forall m : Hooks1.Mutation,
      (requests (effects (Hooks1.run m answer) w) = []
       \/ exists r, requests (effects (Hooks1.run m answer) w) = [r]
                    /\ req_method r = POST)
      /\ saved (effects (Hooks1.run m answer) w) = []).
Proof.
  split; intros m.
  - destruct m, answer; simpl; hooks2; unfold effects; guards; split; observe;
      try reflexivity; try (by left);
      right; eexists; (split; [reflexivity|by rewrite sent2_fields]).
  - destruct m, answer; simpl; hooks1; unfold effects; guards; split; observe;
      try reflexivity; try (by left);
      right; eexists; (split; [reflexivity|by rewrite sent1_fields]).
Qed.


(** ** Errors of [useCreateProject] *)

(** X9.  For a response that carries an error, [useCreateProject] (both
    revisions) and [useCreateTestSet] raise an [Error] whose message joins
    the messages of the validation errors with a semicolon and a space
    when the detail is a list, and a [TypeError] when the detail is a
    non-empty text, which has no [map]; without detail, or with an empty
    text as detail, they raise an [Error]. *)
Theorem createProject_error_messages `{AuthProvider} {D} (project : JS) (slug : string)
    (l : list ValidationError) (c : ascii) (text : string) (r : Response) (w : World) :
  let list_error := FetchError (D := D) {| detail := DetailList l |} r in
  let text_error := FetchError (D := D) {| detail := DetailText (String c text) |} r in
  let bare_error := FetchError (D := D) {| detail := DetailAbsent |} r in
  let empty_error := FetchError (D := D) {| detail := DetailText "" |} r in
  (outcome (Api1.useCreateProject project list_error) w
   = Thrown (Error (join "; " (map msg l)))
   /\ outcome (Api2.useCreateProject project list_error) w
      = Thrown (Error (join "; " (map msg l)))
   /\ outcome (Api2.useCreateTestSet slug project list_error) w
      = Thrown (Error (join "; " (map msg l))))
  /\ (outcome (Api1.useCreateProject project text_error) w = Thrown TypeError
      /\ outcome (Api2.useCreateProject project text_error) w = Thrown TypeError
      /\ outcome (Api2.useCreateTestSet slug project text_error) w = Thrown TypeError)
  /\ (forall failed, failed = bare_error \/ failed = empty_error ->
      exists message,
        outcome (Api1.useCreateProject project failed) w = Thrown (Error message)
        /\ outcome (Api2.useCreateProject project failed) w = Thrown (Error message)
        /\ outcome (Api2.useCreateTestSet slug project failed) w
           = Thrown (Error message)).
Proof.
  simpl. hooks1. hooks2. split; [|split].
  - repeat split; observe; reflexivity.
  - repeat split; observe; reflexivity.
  - intros failed [->| ->]; eexists; repeat split; observe; reflexivity.
Qed.

(** ** The lists of projects and users *)

Lemma set_member_fresh (key : string) (v : JS) (props : list (string * JS)) :
  key ∉ map fst props -> set_member key v props = (props ++ [(key, v)])%list.
Proof.
  induction props as [|p props IH]; simpl; [done|].
  intros Hk. apply not_elem_of_cons in Hk as [Hne Hk].
  destruct (String.eqb_spec (fst p) key) as [Heq|_]; [congruence|].
  by rewrite (IH Hk).
Qed.

Lemma parsed_from (members props : list (string * JS)) :
  NoDup (map fst (props ++ members)) ->
  fold_left (fun props m => set_member (fst m) (snd m) props) members props
  = (props ++ members)%list.
Proof.
  revert props. induction members as [|[k v] members IH]; intros props Hnd; simpl.
  - by rewrite app_nil_r.
  - rewrite set_member_fresh.
    + rewrite IH; rewrite <- app_assoc; [done|exact Hnd].
    + rewrite map_app in Hnd. apply NoDup_app in Hnd as (_ & Hdis & _).
      intros Hin. apply (Hdis k Hin). simpl. by left.
Qed.

Lemma parsed_distinct (members : list (string * JS)) :
  NoDup (map fst members) -> parsed members = members.
Proof. intros Hnd. unfold parsed. by rewrite parsed_from. Qed.

Lemma insert_index_elem (n : N) (p : string * JS) (l : list (N * (string * JS)))
    (x : N * (string * JS)) :
  x ∈ insert_index n p l <-> x = (n, p) \/ x ∈ l.
Proof.
  induction l as [|q l IH]; simpl.
  - rewrite list_elem_of_singleton. split; [by left|]. intros [?|Hx]; [done|].
    by apply elem_of_nil in Hx.
  - destruct (N.leb n (fst q)); rewrite !elem_of_cons; [done|].
    rewrite IH. tauto.
Qed.

Lemma insert_index_sorted (n : N) (p : string * JS) (l : list (N * (string * JS))) :
  StronglySorted (fun a b => (fst a <= fst b)%N) l ->
  StronglySorted (fun a b => (fst a <= fst b)%N) (insert_index n p l).
Proof.
  induction l as [|q l IH]; intros Hs; simpl.
  - repeat constructor.
  - apply StronglySorted_inv in Hs as [Hl Hq].
    destruct (N.leb_spec n (fst q)) as [Hle|Hlt].
    + constructor; [by constructor|]. constructor; [exact Hle|].
      apply List.Forall_forall. intros x Hx. simpl.
      pose proof (proj1 (List.Forall_forall _ _) Hq x Hx). simpl in *. lia.
    + constructor; [by apply IH|].
      apply List.Forall_forall. intros x Hx.
      apply list_elem_of_In, insert_index_elem in Hx as [->|Hx]; simpl; [lia|].
      apply (proj1 (List.Forall_forall _ _) Hq x). by apply list_elem_of_In.
Qed.

Lemma indexed_sorted (props : list (string * JS)) :
  StronglySorted (fun a b => (fst a <= fst b)%N) (indexed props).
Proof.
  induction props as [|p props IH]; simpl; [constructor|].
  destruct (array_index (fst p)); [by apply insert_index_sorted|done].
Qed.

Lemma indexed_elem (props : list (string * JS)) (n : N) (p : string * JS) :
  (n, p) ∈ indexed props <-> p ∈ props /\ array_index (fst p) = Some n.
Proof.
  induction props as [|q props IH]; simpl.
  - split; [intros Hx; by apply elem_of_nil in Hx|].
    intros [Hx _]. by apply elem_of_nil in Hx.
  - rewrite elem_of_cons. destruct (array_index (fst q)) as [m|] eqn:Eq.
    + rewrite insert_index_elem, IH. split.
      * intros [[= -> ->]|[Hp Hn]]; [by split; [left|]|by split; [right|]].
      * intros [[->|Hp] Hn]; [left; congruence|by right].
    + rewrite IH. split.
      * intros [Hp Hn]. by split; [right|].
      * intros [[->|Hp] Hn]; [congruence|done].
Qed.

Lemma named_elem (props : list (string * JS)) (p : string * JS) :
  p ∈ named props <-> p ∈ props /\ array_index (fst p) = None.
Proof.
  induction props as [|q props IH]; simpl.
  - split; [intros Hx; by apply elem_of_nil in Hx|].
    intros [Hx _]. by apply elem_of_nil in Hx.
  - destruct (array_index (fst q)) as [m|] eqn:Eq; rewrite ?elem_of_cons, IH.
    + split.
      * intros [Hp Hn]. by split; [right|].
      * intros [[->|Hp] Hn]; [congruence|done].
    + split.
      * intros [->|[Hp Hn]]; [by split; [left|]|by split; [right|]].
      * intros [[->|Hp] Hn]; [by left|by right].
Qed.

Lemma named_sublist (props : list (string * JS)) : sublist (named props) props.
Proof.
  induction props as [|q props IH]; simpl; [constructor|].
  destruct (array_index (fst q)); by constructor.
Qed.

Lemma own_properties_named (props : list (string * JS)) :
  (forall p, p ∈ props -> array_index (fst p) = None) ->
  own_properties props = props.
Proof.
  unfold own_properties. induction props as [|q props IH]; intros Hn; simpl; [done|].
  rewrite (Hn q) by (by left). simpl.
  assert (Hrest : forall p, p ∈ props -> array_index (fst p) = None).
  { intros p Hp. apply Hn. by right. }
  specialize (IH Hrest).
  assert (indexed props = []) as Hi.
  { clear IH. induction props as [|q' props IH']; simpl; [done|].
    rewrite (Hrest q') by (by left). apply IH'.
    - intros p Hp. apply Hn. apply elem_of_cons in Hp as [->|Hp]; [by left|].
      right. by right.
    - intros p Hp. apply Hrest. by right. }
  rewrite Hi in *. simpl in *. by rewrite IH.
Qed.

(** X10.  For a response with data [useUserProjects] (both revisions)
    notifies nothing and returns the values of the projects object in the
    order in which the platform enumerates the keys: first the projects
    whose name is an array index, by ascending index, then the others in
    the order of the payload; so the order of the payload is kept when the
    names are distinct and none is an array index.  On a response that
    carries an error it emits exactly one error notification, whose message
    is the JSON text of the error, and raises an [HttpError] with the
    status of the response. *)
Theorem userProjects_reports_and_raises `{AuthProvider} `{Json}
    (d : Projects) (e : ErrorBody) (r : Response) (w : World) :
  (outcome (Lists.useUserProjects (FetchData d r)) w = Returned (values (projects d))
   /\ notifications (effects (Lists.useUserProjects (FetchData d r)) w) = []
   /\ outcome (Lists.useUserProjects1 (FetchData d r)) w
      = Returned (values (projects d)))
  /\ (exists first rest,
        values (projects d)
        = (map (fun ip => snd (snd ip)) first ++ map snd rest)%list
        /\ StronglySorted (fun a b => (fst a <= fst b)%N) first
        /\ (forall n p, (n, p) ∈ first
                        <-> p ∈ parsed (projects d) /\ array_index (fst p) = Some n)
        /\ sublist rest (parsed (projects d))
        /\ (forall p, p ∈ rest
                      <-> p ∈ parsed (projects d) /\ array_index (fst p) = None))
  /\ (NoDup (map fst (projects d)) -> parsed (projects d) = projects d)
  /\ (NoDup (map fst (projects d)) ->
      (forall p, p ∈ projects d -> array_index (fst p) = None) ->
      values (projects d) = map snd (projects d))
  /\ (outcome (Lists.useUserProjects (FetchError e r)) w
      = Thrown (HttpError (status r) "")
      /\ notifications (effects (Lists.useUserProjects (FetchError e r)) w)
         = [{| type := error; message := JSON_stringify e |}]
      /\ outcome (Lists.useUserProjects1 (FetchError e r)) w
         = Thrown (HttpError (status r) "")
      /\ notifications (effects (Lists.useUserProjects1 (FetchError e r)) w)
         = [{| type := error; message := JSON_stringify e |}]).
Proof.
  split; [|split; [|split; [|split]]].
  - unfold Lists.useUserProjects, Lists.useUserProjects1.
    repeat split; observe; reflexivity.
  - exists (indexed (parsed (projects d))), (named (parsed (projects d))).
    split; [|split; [|split; [|split]]].
    + unfold values, own_properties. by rewrite map_app, map_map.
    + apply indexed_sorted.
    + intros n p. apply indexed_elem.
    + apply named_sublist.
    + intros p. apply named_elem.
  - apply parsed_distinct.
  - intros Hnd Hnone. unfold values.
    rewrite (parsed_distinct _ Hnd). by rewrite own_properties_named.
  - unfold Lists.useUserProjects, Lists.useUserProjects1.
    repeat split; observe; reflexivity.
Qed.

Lemma userProjects_reports_and_raises_witness :
  outcome (Lists.useUserProjects (H := Auth.provider)
             (H0 := {| JSON_stringify := fun _ => "{}" |})
             (FetchData {| projects := [("beta", JNum 1); ("10", JNum 2);
                                        ("alpha", JNum 3); ("9", JNum 4)] |}
                        {| status := 200 |}))
          (signed_in "alice" "stored")
  = Returned [JNum 4; JNum 2; JNum 1; JNum 3].
Proof.
  rewrite (proj1 (proj1 (userProjects_reports_and_raises (H := Auth.provider)
                           (H0 := {| JSON_stringify := fun _ => "{}" |})
                           {| projects := [("beta", JNum 1); ("10", JNum 2);
                                           ("alpha", JNum 3); ("9", JNum 4)] |}
                           {| detail := DetailAbsent |} {| status := 200 |}
                           (signed_in "alice" "stored")))).
  vm_compute. reflexivity.
Defined.

(** ** The first page of the table *)

(** X11.  The table starts on page 1 when the initial page is missing or
    0 and on the given page otherwise; with 10 elements by page when the
    initial size is missing or 0 and with the given size otherwise; and
    with a total of 0.  So the first page has neither index 0 nor size 0.
    [getPage] changes the page and keeps the total. *)
Theorem table_starts_on_nonzero_page (initialPage initialPageSize : option Z)
    (p : PageInfo) (st : TableElements) :
  let st0 := Api2.useTableElements_init initialPage initialPageSize in
  (pageIndex (pageInfo (Api2.useTableElements_init None initialPageSize)) = 1
   /\ pageIndex (pageInfo (Api2.useTableElements_init (Some 0) initialPageSize)) = 1
   /\ (forall n, n <> 0 ->
         pageIndex (pageInfo (Api2.useTableElements_init (Some n) initialPageSize))
         = n))
  /\ (pageSize (pageInfo (Api2.useTableElements_init initialPage None)) = 10
      /\ pageSize (pageInfo (Api2.useTableElements_init initialPage (Some 0))) = 10
      /\ (forall n, n <> 0 ->
            pageSize (pageInfo (Api2.useTableElements_init initialPage (Some n)))
            = n))
  /\ table_total st0 = 0
  /\ pageIndex (pageInfo st0) <> 0 /\ pageSize (pageInfo st0) <> 0
  /\ pageInfo (Api2.getPage p st) = p
  /\ table_total (Api2.getPage p st) = table_total st.
Proof.
  simpl. unfold or_default. simpl.
  assert (Hkeep : forall n, n <> 0 -> (if negb (Z.eqb n 0) then n else 1) = n
                                      /\ (if negb (Z.eqb n 0) then n else 10) = n).
  { intros n Hn. by destruct (Z.eqb_spec n 0). }
  repeat split; try (intros n Hn; by apply Hkeep).
  - destruct initialPage as [n|]; [|lia]. destruct (Z.eqb_spec n 0); simpl; lia.
  - destruct initialPageSize as [n|]; [|lia]. destruct (Z.eqb_spec n 0); simpl; lia.
Qed.

Lemma table_starts_on_nonzero_page_witness :
  pageIndex (pageInfo (Api2.useTableElements_init (Some 3) None)) = 3
  /\ pageSize (pageInfo (Api2.useTableElements_init (Some 3) None)) = 10.
Proof.
  pose proof (table_starts_on_nonzero_page (Some 3) None
                {| pageIndex := 1; pageSize := 10 |}
                (Api2.useTableElements_init None None)) as ((_ & _ & Hn) & (Hs & _) & _).
  split; [apply (Hn 3); lia|exact Hs].
Defined.

(** * Properties of the components *)

(** ** Default features of the simple model form *)

Section FilterThenFind.
Context {A : Type} (p q : A -> bool).

Lemma filter_then_find (l : list A) :
  let chosen := match List.find q l with
                | Some f => (List.filter p l ++ [f])%list
                | None => List.filter p l
                end in
  (forall e, In e chosen -> In e l)
  /\ (forall e, In e l -> p e = true -> In e chosen)
  /\ (length chosen <= S (length (List.filter p l)))%nat
  /\ (List.NoDup l ->
      (List.NoDup chosen <->
       match List.find q l with
       | Some f => p f = false
       | None => True
       end)).
Proof.
  simpl. destruct (List.find q l) as [f|] eqn:Ef.
  - destruct (List.find_some _ _ Ef) as [Hin Hp].
    split; [|split; [|split]].
    + intros e He. destruct (proj1 (List.in_app_iff _ _ _) He) as [He'|He'].
      * by destruct (proj1 (List.filter_In _ _ _) He').
      * destruct He' as [<-|[]]. exact Hin.
    + intros e He Hm. apply List.in_app_iff. left. by apply List.filter_In.
    + rewrite length_app. simpl. lia.
    + intros Hnd. split.
      * intros Hc. destruct (p f) eqn:Em; [|done]. exfalso.
        destruct (proj1 (NoDup_app _ _) (proj2 (NoDup_ListNoDup _) Hc)) as (_ & Hdis & _).
        apply (Hdis f); [|left].
        apply list_elem_of_In, List.filter_In. by split.
      * intros Em. apply NoDup_ListNoDup, NoDup_app. split; [|split].
        -- by apply NoDup_ListNoDup, List.NoDup_filter.
        -- intros e He Hf. apply list_elem_of_singleton in Hf. subst e.
           apply list_elem_of_In in He.
           destruct (proj1 (List.filter_In _ _ _) He) as [_ He']. congruence.
        -- apply NoDup_singleton.
  - split; [|split; [|split]].
    + intros e He. by destruct (proj1 (List.filter_In _ _ _) He).
    + intros e He Hm. by apply List.filter_In.
    + lia.
    + intros Hnd. split; [done|]. intros _. by apply List.NoDup_filter.
Qed.
End FilterThenFind.

Lemma find_first {A : Type} (q : A -> bool) (before after : list A) (f : A) :
  q f = true -> (forall e, In e before -> q e = false) ->
  List.find q (before ++ f :: after) = Some f.
Proof.
  intros Hf Hb. induction before as [|b before IH]; simpl.
  - by rewrite Hf.
  - rewrite (Hb b) by (by left). apply IH. intros e He. apply Hb. by right.
Qed.

Lemma find_nothing {A : Type} (q : A -> bool) (l : list A) :
  (forall e, In e l -> q e = false) -> List.find q l = None.
Proof.
  intros Hl. induction l as [|b l IH]; simpl; [done|].
  rewrite (Hl b) by (by left). apply IH. intros e He. apply Hl. by right.
Qed.

(** X12.  The default features of the simple model form are the features
    of the project whose label contains sbert or fasttext, in their
    order, followed by the first feature whose label contains predict
    when there is one, and by nothing otherwise; all of them are features
    of the project.  A feature that is both is given twice: with features
    that are all different, the default features repeat one exactly when
    the first predict feature is also an sbert or fasttext feature. *)
Theorem filterFeatures_default_selection
    (features : list SimpleModelManagement.Feature) :
  let embedding := fun e => test_i ["sbert"; "fasttext"] (SimpleModelManagement.label e) in
  let prediction := fun e => test_i ["predict"] (SimpleModelManagement.label e) in
  let chosen := SimpleModelManagement.filterFeatures features in
  (forall before f after,
      features = (before ++ f :: after)%list -> prediction f = true ->
      (forall e, In e before -> prediction e = false) ->
      chosen = (List.filter embedding features ++ [f])%list)
  /\ ((forall e, In e features -> prediction e = false) ->
      chosen = List.filter embedding features)
  /\ (forall e, In e chosen -> In e features)
  /\ (forall e, In e features -> embedding e = true -> In e chosen)
  /\ (length chosen <= S (length (List.filter embedding features)))%nat
  /\ (List.NoDup features ->
      (List.NoDup chosen <->
       match List.find prediction features with
       | Some f => embedding f = false
       | None => True
       end)).
Proof.
  split; [|split].
  - intros before f after -> Hf Hb. simpl.
    unfold SimpleModelManagement.filterFeatures.
    by rewrite (find_first _ before after f Hf Hb).
  - intros Hn. simpl. unfold SimpleModelManagement.filterFeatures.
    by rewrite (find_nothing _ features Hn).
  - exact (filter_then_find
             (fun e => test_i ["sbert"; "fasttext"] (SimpleModelManagement.label e))
             (fun e => test_i ["predict"] (SimpleModelManagement.label e)) features).
Qed.

Lemma filterFeatures_default_selection_witness :
  let features := SimpleModelManagement.features ["dfm"; "sbert_predict"; "fasttext"] in
  SimpleModelManagement.filterFeatures features
  = SimpleModelManagement.features ["sbert_predict"; "fasttext"; "sbert_predict"]
  /\ ~ List.NoDup (SimpleModelManagement.filterFeatures features).
Proof.
  intros features. split; [reflexivity|].
  pose proof (filterFeatures_default_selection features) as (_ & _ & _ & _ & _ & Hnd).
  intros Hc. apply Hnd in Hc; [vm_compute in Hc; discriminate|].
  unfold features. simpl.
  repeat (constructor; [simpl; intuition congruence|]). constructor.
Defined.

(** ** Submission of the simple model and projection forms *)

(** X13.  The three submit handlers (simple model, projection in both
    documents) check the watched selection of features before anything
    is sent: with an empty selection they emit exactly one error
    notification, send nothing and return; while the field has no value
    they raise a [TypeError] and neither notify nor send. *)
Theorem submit_requires_a_feature `{AuthProvider} {D}
    (projectName currentScheme : option string) (selectedMethod : string)
    (model : SimpleModelModel) (projection : ProjectionInStrictModel)
    (answer : FetchResult D) (w : World) :
  let notice := {| type := error; message := "Please select at least one feature" |} in
  (effects (SimpleModelManagement.onSubmit projectName currentScheme (Some [])
              model answer) w = [Console; Notify notice]
   /\ effects (ProjectionManagement.onSubmit projectName currentScheme selectedMethod
                 (Some []) projection answer) w = [Console; Notify notice]
   /\ effects (ProjectionManagement2.onSubmit projectName currentScheme selectedMethod
                 (Some []) projection answer) w = [Notify notice])
  /\ (outcome (SimpleModelManagement.onSubmit projectName currentScheme None
                 model answer) w = Thrown TypeError
      /\ effects (SimpleModelManagement.onSubmit projectName currentScheme None
                    model answer) w = [Console]
      /\ outcome (ProjectionManagement.onSubmit projectName currentScheme
                    selectedMethod None projection answer) w = Thrown TypeError
      /\ outcome (ProjectionManagement2.onSubmit projectName currentScheme
                    selectedMethod None projection answer) w = Thrown TypeError).
Proof.
  simpl. unfold SimpleModelManagement.onSubmit, ProjectionManagement.onSubmit,
    ProjectionManagement2.onSubmit.
  repeat split; observe; reflexivity.
Qed.

Lemma assoc_pick (fields : list (string * JS)) (paths : list string) (key : string) :
  assoc key (pick_fields fields paths)
  = if bool_decide (key ∈ paths) then assoc key fields else None.
Proof.
  induction paths as [|k paths IH]; simpl; [done|].
  destruct (decide (key = k)) as [->|Hne].
  - rewrite bool_decide_eq_true_2; [|left].
    destruct (assoc k fields) as [v|] eqn:Ek; simpl.
    + by rewrite String.eqb_refl.
    + rewrite IH. by destruct (bool_decide (k ∈ paths)).
  - assert (Hb : bool_decide (key ∈ k :: paths) = bool_decide (key ∈ paths)).
    { apply bool_decide_ext. rewrite elem_of_cons.
      split; [intros [Heq|Hin]; [congruence|exact Hin]|by right]. }
    rewrite Hb.
    destruct (assoc k fields) as [v|] eqn:Ek; simpl; [|exact IH].
    destruct (String.eqb_spec k key) as [Heq|_]; [congruence|exact IH].
Qed.

Lemma sent1_log `{AuthProvider} (request : Request) (w : World) (evs : list Event) :
  sent Api1.authMiddleware request (log w evs) = sent Api1.authMiddleware request w.
Proof.
  unfold sent. simpl. unfold mbind, M_bind, localStorage_getItem. simpl.
  destruct (localStorage w !! "activeTigger.auth") as [text|]; simpl; [|done].
  destruct (truthy_string text); simpl; [|done].
  destruct (JSON_parse text) as [user|]; simpl; [|done].
  by destruct (getAuthHeaders user).
Qed.

Lemma sent2_log `{AuthProvider} (request : Request) (w : World) (evs : list Event) :
  sent Api2.authMiddleware request (log w evs) = sent Api2.authMiddleware request w.
Proof.
  unfold sent. simpl. unfold mbind, M_bind, localStorage_getItem. simpl.
  destruct (localStorage w !! "activeTigger.auth") as [text|]; simpl; [|done].
  destruct (truthy_string text); simpl; [|done].
  destruct (JSON_parse text) as [user|]; simpl; [|done].
  by destruct (getAuthHeaders user).
Qed.

(** X14.  With a project, a scheme and features, the projection form
    sends one request whose parameters are those of the form restricted
    to the parameters of the selected method: a parameter of the method
    has the value of the form and any other parameter is absent.  For a
    method that is neither tsne nor umap the request is sent with no
    parameter at all. *)
Theorem projection_sends_relevant_params `{AuthProvider} {D}
    (projectName currentScheme : option string) (selectedMethod method : string)
    (selected features : list string) (fields : list (string * JS))
    (answer : FetchResult D) (w : World) :
  truthy projectName = true -> truthy currentScheme = true -> selected <> [] ->
  let formData := {| pj_method := method; pj_features := Some features;
                     pj_params := Some (JObj fields) |} in
  exists r sent_params,
    requests (effects (ProjectionManagement.onSubmit projectName currentScheme
                         selectedMethod (Some selected) formData answer) w) = [r]
    /\ requests (effects (ProjectionManagement2.onSubmit projectName currentScheme
                            selectedMethod (Some selected) formData answer) w) = [r]
    /\ req_body r = Some (JObj [("method", JStr method);
                                ("features", js_strings features);
                                ("params", JObj sent_params)])
    /\ (forall key,
          assoc key sent_params
          = if bool_decide (key ∈ ProjectionManagement.relevantParams selectedMethod)
            then assoc key fields else None)
    /\ (selectedMethod <> "tsne" -> selectedMethod <> "umap" -> sent_params = []).
Proof.
  intros Hp Hs Hsel formData.
  destruct projectName as [[|c1 p]|]; try discriminate.
  destruct currentScheme as [[|c2 s]|]; try discriminate.
  destruct selected as [|f0 selected]; [done|].
  subst formData.
  unfold ProjectionManagement.onSubmit, ProjectionManagement2.onSubmit,
    ProjectionManagement.submitted, Api2.useUpdateProjection, pick.
  eexists. eexists. split; [|split; [|split; [|split]]].
  - destruct answer; observe; rewrite sent2_log; reflexivity.
  - destruct answer; observe; rewrite sent2_log; reflexivity.
  - rewrite sent2_fields. reflexivity.
  - intros key. apply assoc_pick.
  - intros Ht Hu. unfold ProjectionManagement.relevantParams.
    destruct (String.eqb_spec selectedMethod "tsne"); [done|].
    destruct (String.eqb_spec selectedMethod "umap"); [done|]. reflexivity.
Qed.

Lemma projection_sends_relevant_params_witness :
  exists r,
    requests (effects (ProjectionManagement.onSubmit (H := Auth.provider) (D := unit)
                         (Some "demo") (Some "topic") "umap" (Some ["sbert"])
                         {| pj_method := "umap"; pj_features := Some ["sbert"];
                            pj_params := Some (JObj [("perplexity", JNum 30);
                                                     ("n_neighbors", JNum 15)]) |}
                         (FetchData tt {| status := 200 |}))
                      (signed_in "alice" "stored")) = [r]
    /\ req_body r = Some (JObj [("method", JStr "umap");
                                ("features", js_strings ["sbert"]);
                                ("params", JObj [("n_neighbors", JNum 15)])]).
Proof.
  destruct (projection_sends_relevant_params (H := Auth.provider) (D := unit)
              (Some "demo") (Some "topic") "umap" "umap" ["sbert"] ["sbert"]
              [("perplexity", JNum 30); ("n_neighbors", JNum 15)]
              (FetchData tt {| status := 200 |}) (signed_in "alice" "stored")
              eq_refl eq_refl ltac:(discriminate))
    as (r & ps & Hr & _ & Hb & _).
  exists r. split; [exact Hr|].
  vm_compute in Hr. injection Hr as <-. vm_compute. reflexivity.
Defined.

(** ** The element shown beside the projection *)

(** X15.  [setSelectedId] sends at most one request and no notification,
    and never raises.  The selected element is the payload of the answer
    when the id, the project and the scheme are non-empty and the server
    answers without error; in every other case the selection is cleared.
    A request that it sends is a GET of the element with that id in the
    dataset train. *)
Theorem setSelectedId_selection `{AuthProvider} {D : Type}
    (projectName currentScheme id : option string) (answer : FetchResult D)
    (w : World) :
  let run := ProjectionManagement.setSelectedId projectName currentScheme id answer in
  outcome run w
  = Returned (if truthy id && truthy projectName && truthy currentScheme
              then res_data answer else None)
  /\ notifications (effects run w) = []
  /\ (length (requests (effects run w)) <= 1)%nat
  /\ (requests (effects run w) = [] <->
      truthy id && truthy projectName && truthy currentScheme = false)
  /\ (forall r, r ∈ requests (effects run w) ->
        req_method r = GET
        /\ req_path r = "/elements/{element_id}"
        /\ Some (req_path_params r) = (fun i => [("element_id", JStr i)]) <$> id
        /\ assoc "dataset" (req_query r) = Some (JStr "train")
        /\ assoc "project_slug" (req_query r) = Some (js_string projectName)
        /\ assoc "scheme" (req_query r) = Some (js_string currentScheme)).
Proof.
  intros run. subst run.
  unfold ProjectionManagement.setSelectedId, Api2.useGetElementById,
    data_or_undefined.
  destruct id as [[|c i]|]; destruct projectName as [[|c1 p]|];
    destruct currentScheme as [[|c2 s]|]; destruct answer as [d rsp|e rsp];
    observe; (split; [reflexivity|]); (split; [reflexivity|]);
    (split; [lia|]); (split; [split; done|]); intros r Hr;
    try (by apply elem_of_nil in Hr);
    apply list_elem_of_singleton in Hr; subst r; rewrite sent2_fields; done.
Qed.

(** ** The frame of the projection *)

(** X16.  The frame stored for a bounding box is read back as the same
    bounding box, and the frame stored for no bounding box as none; the
    other fields of the selection configuration are kept. *)
Theorem frame_bbox_round_trip
    (bbox : option (ProjectionManagement.MarqueBoundingBox Z))
    (selectionConfig : SelectionConfig) :
  let stored := ProjectionManagement.setFrameBbox bbox selectionConfig in
  ProjectionManagement.frameAsBbox (frame stored)
  = (fun b => {| ProjectionManagement.x :=
                   {| ProjectionManagement.min :=
                        Some (ProjectionManagement.min (ProjectionManagement.x b));
                      ProjectionManagement.max :=
                        Some (ProjectionManagement.max (ProjectionManagement.x b)) |};
                 ProjectionManagement.y :=
                   {| ProjectionManagement.min :=
                        Some (ProjectionManagement.min (ProjectionManagement.y b));
                      ProjectionManagement.max :=
                        Some (ProjectionManagement.max (ProjectionManagement.y b)) |} |})
    <$> bbox
  /\ mode stored = mode selectionConfig
  /\ sample stored = sample selectionConfig
  /\ label stored = label selectionConfig
  /\ frameSelection stored = frameSelection selectionConfig
  /\ filter stored = filter selectionConfig.
Proof. by destruct bbox as [[[x0 x1] [y0 y1]]|]. Qed.

(** X17.  A frame is read as a bounding box whatever its length: its four
    coordinates are all defined exactly when the frame has at least four
    numbers, and the bounding box of a frame of four numbers is stored
    back as that frame. *)
Theorem frame_read_as_bbox (f : list Z) (selectionConfig : SelectionConfig) :
  exists b,
    ProjectionManagement.frameAsBbox (Some f) = Some b
    /\ (is_Some (ProjectionManagement.min (ProjectionManagement.x b))
        /\ is_Some (ProjectionManagement.max (ProjectionManagement.x b))
        /\ is_Some (ProjectionManagement.min (ProjectionManagement.y b))
        /\ is_Some (ProjectionManagement.max (ProjectionManagement.y b))
        <-> (4 <= length f)%nat)
    /\ (forall x0 x1 y0 y1,
          f = [x0; x1; y0; y1] ->
          frame (ProjectionManagement.setFrameBbox
                   (Some {| ProjectionManagement.x :=
                              {| ProjectionManagement.min := x0;
                                 ProjectionManagement.max := x1 |};
                            ProjectionManagement.y :=
                              {| ProjectionManagement.min := y0;
                                 ProjectionManagement.max := y1 |} |})
                   selectionConfig) = Some f).
Proof.
  eexists. split; [reflexivity|]. simpl. split.
  - split.
    + intros (_ & _ & _ & H3). apply lookup_lt_is_Some in H3. lia.
    + intros Hl. repeat split; apply lookup_lt_is_Some; lia.
  - by intros x0 x1 y0 y1 ->.
Qed.

(** X18.  The frame that the next-element request carries is the one that
    [setFrameBbox] stored: with the frame selection on, the four
    coordinates of the bounding box in the order x.min, x.max, y.min,
    y.max, and undefined once the bounding box is removed; with the frame
    selection off, always the empty list. *)
Theorem next_element_frame_follows_bbox `{AuthProvider}
    (projectSlug currentScheme : option string)
    (bbox : option (ProjectionManagement.MarqueBoundingBox Z))
    (selectionConfig : SelectionConfig) (history : list string) (phase : string)
    (answer : FetchResult NextElement) (w : World) :
  truthy projectSlug = true -> truthy currentScheme = true ->
  exists r fields,
    requests (effects (Api2.useGetNextElementId projectSlug currentScheme
                         (ProjectionManagement.setFrameBbox bbox selectionConfig)
                         history phase answer) w) = [r]
    /\ req_body r = Some (JObj fields)
    /\ assoc "frame" fields
       = Some (if truthy (frameSelection selectionConfig)
               then match bbox with
                    | Some b =>
                        JArr [JNum (ProjectionManagement.min (ProjectionManagement.x b));
                              JNum (ProjectionManagement.max (ProjectionManagement.x b));
                              JNum (ProjectionManagement.min (ProjectionManagement.y b));
                              JNum (ProjectionManagement.max (ProjectionManagement.y b))]
                    | None => JUndefined
                    end
               else JArr []).
Proof.
  intros Hp Hs.
  destruct projectSlug as [[|c1 p]|]; try discriminate.
  destruct currentScheme as [[|c2 s]|]; try discriminate.
  unfold Api2.useGetNextElementId.
  destruct selectionConfig as [m0 s0 l0 f0 [[|]|] fi0];
    destruct bbox as [b|]; destruct answer as [d rsp|e rsp];
    eexists; eexists; (split; [observe; reflexivity|]);
    (split; [rewrite sent2_fields; reflexivity|]); reflexivity.
Qed.

Lemma next_element_frame_follows_bbox_witness :
  exists r fields,
    requests (effects (Api2.useGetNextElementId (H := Auth.provider)
                         (Some "demo") (Some "topic")
                         (ProjectionManagement.setFrameBbox
                            (Some {| ProjectionManagement.x :=
                                       {| ProjectionManagement.min := 1;
                                          ProjectionManagement.max := 2 |};
                                     ProjectionManagement.y :=
                                       {| ProjectionManagement.min := 3;
                                          ProjectionManagement.max := 4 |} |})
                            {| mode := "deterministic"; sample := "untagged";
                               label := None; frame := None;
                               frameSelection := Some true; filter := None |})
                         [] "train"
                         (FetchData {| element_id := "e1" |} {| status := 200 |}))
                      (signed_in "alice" "stored")) = [r]
    /\ req_body r = Some (JObj fields)
    /\ assoc "frame" fields = Some (JArr [JNum 1; JNum 2; JNum 3; JNum 4]).
Proof.
  exact (next_element_frame_follows_bbox (H := Auth.provider)
           (Some "demo") (Some "topic")
           (Some {| ProjectionManagement.x :=
                      {| ProjectionManagement.min := 1;
                         ProjectionManagement.max := 2 |};
                    ProjectionManagement.y :=
                      {| ProjectionManagement.min := 3;
                         ProjectionManagement.max := 4 |} |})
           {| mode := "deterministic"; sample := "untagged";
              label := None; frame := None;
              frameSelection := Some true; filter := None |}
           [] "train"
           (FetchData {| element_id := "e1" |} {| status := 200 |})
           (signed_in "alice" "stored") eq_refl eq_refl).
Defined.

(** ** The colours of the labels *)

Lemma unique_from_spec (labels seen : list string) :
  NoDup (ProjectionManagement2.unique_from seen labels)
  /\ (forall l, l ∈ ProjectionManagement2.unique_from seen labels
                <-> l ∈ labels /\ l ∉ seen).
Proof.
  revert seen. induction labels as [|a rest IH]; intros seen; simpl.
  - split; [constructor|]. intros l. split.
    + intros Hl. by apply elem_of_nil in Hl.
    + intros [Hl _]. by apply elem_of_nil in Hl.
  - case_bool_decide as Ha.
    + destruct (IH seen) as [Hnd Hel]. split; [exact Hnd|].
      intros l. rewrite Hel, elem_of_cons. split.
      * intros [Hl Hs]. by split; [right|].
      * intros [[->|Hl] Hs]; [done|by split].
    + destruct (IH (a :: seen)) as [Hnd Hel]. split.
      * constructor; [|exact Hnd]. intros Hin.
        apply Hel in Hin as [_ Hn]. apply Hn. by left.
      * intros l. rewrite !elem_of_cons, Hel, elem_of_cons. split.
        -- intros [->|[Hl Hs]]; [by split; [left|]|].
           split; [by right|]. intros Hin. apply Hs. by right.
        -- intros [[->|Hl] Hs]; [by left|].
           destruct (decide (l = a)) as [->|Hne]; [by left|].
           right. split; [done|]. by intros [?|?].
Qed.

Lemma unique_from_head (l : string) (rest : list string) :
  head (ProjectionManagement2.uniqueLabels (l :: rest)) = Some l.
Proof.
  unfold ProjectionManagement2.uniqueLabels. simpl. reflexivity.
Qed.

Lemma assign_lookup (labels : list string) (index : nat)
    (acc : gmap string (option string)) (l : string) :
  NoDup labels ->
  (l ∉ labels \/ l = "__proto__" ->
   ProjectionManagement2.assign index labels acc !! l = acc !! l)
  /\ (forall i, labels !! i = Some l -> l <> "__proto__" ->
        ProjectionManagement2.assign index labels acc !! l
        = Some (ProjectionManagement2.colormap !! (index + i)%nat)).
Proof.
  revert index acc. induction labels as [|a rest IH]; intros index acc Hnd.
  - split; [done|]. intros i Hi. by rewrite lookup_nil in Hi.
  - apply NoDup_cons in Hnd as [Ha Hnd]. simpl. split.
    + intros Hl.
      destruct (IH (S index)
                  (if String.eqb a "__proto__" then acc
                   else <[a:=ProjectionManagement2.colormap !! index]> acc) Hnd)
        as [Hout _].
      rewrite Hout.
      * destruct (String.eqb_spec a "__proto__") as [Hp|Hp]; [done|].
        apply lookup_insert_ne. destruct Hl as [Hl| ->]; [|done].
        intros ->. apply Hl. by left.
      * destruct Hl as [Hl|Hl]; [left|by right].
        intros Hin. apply Hl. by right.
    + intros [|j] Hi Hp; simpl in Hi.
      * injection Hi as ->.
        destruct (IH (S index)
                    (if String.eqb l "__proto__" then acc
                     else <[l:=ProjectionManagement2.colormap !! index]> acc) Hnd)
          as [Hout _].
        rewrite Hout by (by left).
        destruct (String.eqb_spec l "__proto__") as [|_]; [done|].
        rewrite Nat.add_0_r. apply lookup_insert_eq.
      * destruct (IH (S index)
                    (if String.eqb a "__proto__" then acc
                     else <[a:=ProjectionManagement2.colormap !! index]> acc) Hnd)
          as [_ Hin].
        rewrite (Hin j Hi Hp). do 2 f_equal. lia.
Qed.

Lemma colormap_NoDup : NoDup ProjectionManagement2.colormap.
Proof. apply (bool_decide_unpack _). vm_compute. exact I. Qed.

(** X19.  The keys of the colour mapping are exactly the labels of the
    projection other than [__proto__], for which the assignment makes no
    property.  A label gets the colour at the rank of its first occurrence
    among the distinct labels (a rank that [__proto__] takes too), the
    first label the first colour; two labels never share a colour; and a
    label is mapped to undefined exactly when it is the eleventh distinct
    label or a later one. *)
Theorem labeledColors_by_first_occurrence (labels : list string) :
  exists mapping,
    ProjectionManagement2.labeledColors (Some labels) = Some mapping
    /\ (forall l, is_Some (mapping !! l) <-> l ∈ labels /\ l <> "__proto__")
    /\ NoDup (ProjectionManagement2.uniqueLabels labels)
    /\ (forall l, l ∈ ProjectionManagement2.uniqueLabels labels <-> l ∈ labels)
    /\ head (ProjectionManagement2.uniqueLabels labels) = head labels
    /\ (forall l i,
          ProjectionManagement2.uniqueLabels labels !! i = Some l ->
          l <> "__proto__" ->
          mapping !! l = Some (ProjectionManagement2.colormap !! i))
    /\ (forall l1 l2 c,
          mapping !! l1 = Some (Some c) -> mapping !! l2 = Some (Some c) -> l1 = l2)
    /\ (forall l,
          mapping !! l = Some None
          <-> l <> "__proto__"
              /\ exists i, ProjectionManagement2.uniqueLabels labels !! i = Some l
                           /\ (10 <= i)%nat).
Proof.
  eexists. split; [reflexivity|].
  destruct (unique_from_spec labels []) as [Hnd Hel].
  fold (ProjectionManagement2.uniqueLabels labels) in Hnd, Hel.
  set (unique := ProjectionManagement2.uniqueLabels labels) in *.
  assert (Hsame : forall l, l ∈ unique <-> l ∈ labels).
  { intros l. rewrite (Hel l). split; [by intros [? _]|].
    intros Hl. split; [done|]. intros Hn. by apply elem_of_nil in Hn. }
  assert (Hat : forall l i, unique !! i = Some l -> l <> "__proto__" ->
                  ProjectionManagement2.assign 0 unique ∅ !! l
                  = Some (ProjectionManagement2.colormap !! i)).
  { intros l i Hi Hp. destruct (assign_lookup unique 0 ∅ l Hnd) as [_ Hin].
    exact (Hin i Hi Hp). }
  assert (Hkey : forall l v, ProjectionManagement2.assign 0 unique ∅ !! l = Some v ->
                   l <> "__proto__"
                   /\ exists i, unique !! i = Some l
                                /\ v = ProjectionManagement2.colormap !! i).
  { intros l v Hv. destruct (assign_lookup unique 0 ∅ l Hnd) as [Hno _].
    destruct (decide (l = "__proto__")) as [Hp|Hp].
    { rewrite (Hno (or_intror Hp)), lookup_empty in Hv. done. }
    split; [done|]. destruct (decide (l ∈ unique)) as [Hin|Hout].
    - apply list_elem_of_lookup in Hin as [i Hi]. exists i. split; [done|].
      rewrite (Hat l i Hi Hp) in Hv. congruence.
    - rewrite (Hno (or_introl Hout)), lookup_empty in Hv. done. }
  split; [|split; [exact Hnd|split; [exact Hsame|split; [|split; [exact Hat|split]]]]].
  - intros l. split.
    + intros [v Hv]. destruct (Hkey l v Hv) as (Hp & i & Hi & _).
      split; [|done]. apply Hsame. by eapply list_elem_of_lookup_2.
    + intros [Hl Hp]. apply Hsame in Hl.
      apply list_elem_of_lookup in Hl as [i Hi]. rewrite (Hat l i Hi Hp). by eexists.
  - subst unique. destruct labels as [|l rest]; [done|]. apply unique_from_head.
  - intros l1 l2 c H1 H2.
    destruct (Hkey _ _ H1) as (_ & i1 & Hi1 & Hc1).
    destruct (Hkey _ _ H2) as (_ & i2 & Hi2 & Hc2).
    assert (i1 = i2) as ->.
    { eapply (proj1 (NoDup_alt _) colormap_NoDup); by symmetry. }
    congruence.
  - intros l. split.
    + intros Hl. destruct (Hkey _ _ Hl) as (Hp & i & Hi & Hc).
      split; [done|]. exists i. split; [done|].
      symmetry in Hc. apply lookup_ge_None in Hc. simpl in Hc. lia.
    + intros (Hp & i & Hi & Hge). rewrite (Hat l i Hi Hp). f_equal.
      apply lookup_ge_None. simpl. lia.
Qed.

(** ** The labels of the selection *)

(** X20.  The effect that forces a default label stores a configuration
    only when the configuration has no label and there is a label
    available; it then stores the first available label and keeps every
    other field.  Run again on what it stored, it stores nothing, unless
    the first available label is the empty text. *)
Theorem forceDefaultLabel_settles (selectionConfig : SelectionConfig)
    (availableLabels : list string) :
  match SelectionManagement.forceDefaultLabel selectionConfig availableLabels with
  | Some stored =>
      truthy (label selectionConfig) = false
      /\ availableLabels <> []
      /\ label stored = head availableLabels
      /\ mode stored = mode selectionConfig
      /\ sample stored = sample selectionConfig
      /\ frame stored = frame selectionConfig
      /\ frameSelection stored = frameSelection selectionConfig
      /\ filter stored = filter selectionConfig
      /\ (SelectionManagement.forceDefaultLabel stored availableLabels = None
          <-> head availableLabels <> Some "")
  | None => truthy (label selectionConfig) = true \/ availableLabels = []
  end.
Proof.
  unfold SelectionManagement.forceDefaultLabel.
  destruct selectionConfig as [m s [[|c l]|] f fs fi];
    destruct availableLabels as [|[|c' a] rest]; simpl;
    try (by left); try (by right); repeat (split; try done).
Qed.



(** ** The submission of the imported texts *)

(** X22.  Without loaded data, or with the id or the text column missing
    or empty, the submission runs no prediction whatever the prediction
    call is, never raises, and keeps the loaded data; it notifies one
    error exactly when data is loaded. *)
Theorem import_submit_incomplete_keeps_data
    (predict : string -> string -> string -> ImportSubmit.FormData ->
               string -> string -> M unit)
    (unparse : ImportPredictionDataset.DataType -> string)
    (projectSlug scheme modelName : string) (formData : ImportSubmit.FormData)
    (data : option ImportPredictionDataset.DataType) (w : World) :
  data = None
  \/ truthy (ImportSubmit.id formData) = false
  \/ truthy (ImportSubmit.text formData) = false ->
  let run := ImportSubmit.onSubmit predict unparse projectSlug scheme modelName
               formData data in
  outcome run w = Returned data
  /\ effects run w
     = match data with
       | Some _ => [Notify {| type := error; message := "Please fill all the fields" |}]
       | None => []
       end.
Proof.
  intros Hc run. subst run. unfold ImportSubmit.onSubmit.
  destruct data as [d|].
  - assert (negb (truthy (ImportSubmit.id formData))
            || negb (truthy (ImportSubmit.text formData)) = true) as ->.
    { destruct Hc as [Hc|[Hc|Hc]]; [done|rewrite Hc..]; [done|].
      apply orb_true_r. }
    unfold effects, outcome. exec. by rewrite drop_app_length.
  - unfold effects, outcome. exec. by rewrite effects_none.
Qed.

Lemma import_submit_incomplete_keeps_data_witness :
  let data := Some {| ImportPredictionDataset.data_headers := ["id"; "text"];
                      ImportPredictionDataset.data := [];
                      ImportPredictionDataset.filename := "texts.csv" |} in
  let run := ImportSubmit.onSubmit (fun _ _ _ _ _ _ => mthrow TypeError)
               (fun _ => "") "demo" "topic" "bert"
               {| ImportSubmit.id := Some "id"; ImportSubmit.text := Some "" |}
               data in
  outcome run (signed_in "alice" "stored") = Returned data.
Proof.
  exact (proj1 (import_submit_incomplete_keeps_data
                  (fun _ _ _ _ _ _ => mthrow TypeError) (fun _ => "")
                  "demo" "topic" "bert"
                  {| ImportSubmit.id := Some "id"; ImportSubmit.text := Some "" |}
                  (Some {| ImportPredictionDataset.data_headers := ["id"; "text"];
                           ImportPredictionDataset.data := [];
                           ImportPredictionDataset.filename := "texts.csv" |})
                  (signed_in "alice" "stored")
                  (or_intror (or_intror eq_refl)))).
Defined.

(** X23.  With loaded data and both columns named, the submission runs the
    prediction call once, from the world it starts in, with the CSV text
    of the data and its file name.  When the call returns, the data is
    cleared and the form reset after it; when the call raises, the
    exception is raised by the submission, the form is not reset and the
    data is not cleared. *)
Theorem import_submit_clears_after_predict
    (predict : string -> string -> string -> ImportSubmit.FormData ->
               string -> string -> M unit)
    (unparse : ImportPredictionDataset.DataType -> string)
    (projectSlug scheme modelName : string) (formData : ImportSubmit.FormData)
    (d : ImportPredictionDataset.DataType) (w : World) :
  truthy (ImportSubmit.id formData) = true ->
  truthy (ImportSubmit.text formData) = true ->
  let run := ImportSubmit.onSubmit predict unparse projectSlug scheme modelName
               formData (Some d) in
  match predict projectSlug scheme modelName formData (unparse d)
                (ImportPredictionDataset.filename d) w with
  | (Returned _, w') => run w = (Returned None, log w' [Called "reset"])
  | (Thrown e, w') => run w = (Thrown e, w')
  end.
Proof.
  intros Hi Ht run. subst run. unfold ImportSubmit.onSubmit.
  rewrite Hi, Ht. simpl. unfold mbind, M_bind.
  by destruct (predict _ _ _ _ _ _ w) as [[[]|e] w'].
Qed.

Lemma import_submit_clears_after_predict_witness :
  let d := {| ImportPredictionDataset.data_headers := ["id"; "text"];
              ImportPredictionDataset.data := [];
              ImportPredictionDataset.filename := "texts.csv" |} in
  ImportSubmit.onSubmit (fun _ _ _ _ _ filename => emit (LoadFile filename))
    (fun _ => "id,text") "demo" "topic" "bert"
    {| ImportSubmit.id := Some "id"; ImportSubmit.text := Some "text" |}
    (Some d) (signed_in "alice" "stored")
  = (Returned None,
     log (signed_in "alice" "stored") [LoadFile "texts.csv"; Called "reset"]).
Proof.
  exact (import_submit_clears_after_predict
           (fun _ _ _ _ _ filename => emit (LoadFile filename))
           (fun _ => "id,text") "demo" "topic" "bert"
           {| ImportSubmit.id := Some "id"; ImportSubmit.text := Some "text" |}
           {| ImportPredictionDataset.data_headers := ["id"; "text"];
              ImportPredictionDataset.data := [];
              ImportPredictionDataset.filename := "texts.csv" |}
           (signed_in "alice" "stored") eq_refl eq_refl).
Defined.

(** ** The configuration step of [init.sh] *)

